(** * valentyusb: the [eptri] endpoint transaction engine

    Cycle-accurate shallow embedding of
    [valentyusb/usbcore/cpu/eptri.py] (classes [TriEndpointInterface],
    [SetupHandler], [InHandler], [OutHandler]).

    The design is synchronous hardware written in Migen.  One clock
    cycle is one application of [step]: the combinational network
    ([self.comb], the [stage.act] bodies) is evaluated on the current
    registers and the current inputs, then every register takes its
    next value ([self.sync], [NextValue], [NextState]).  All domains
    are taken to tick together.

    Conventions:
    - a 1-bit [Signal()] is a [bool]; a wider [Signal(w)] is a [Z] kept
      in [0, 2^w) by [trunc w] at every assignment;
    - when several combinational statements drive one signal the last
      one wins; Migen lists a module's own statements before those of
      its submodules, and submodules in the order they were added
      (setup, in, out, stage);
    - inside one [sync] list a later assignment to a register overrides
      an earlier one. *)

From Stdlib Require Import ZArith Bool List Lia.
Import ListNotations.
Local Open Scope Z_scope.
Local Open Scope bool_scope.

(** ** Signals *)

(** Assignment of [v] to a [w]-bit signal keeps the low [w] bits. *)
Definition trunc (w v : Z) : Z := Z.land v (Z.ones w).

(** A multi-bit value used as a condition ([If(sig, ...)]). *)
Definition nonzero (v : Z) : bool := negb (v =? 0).

(** [Cat(lo, hi)] with [lo] of width [w]: [lo] sits in the low bits. *)
Definition Cat (w lo hi : Z) : Z := Z.lor lo (Z.shiftl hi w).

(** Modelled from the spec: the [PID] enumeration of [usbcore/pid.py],
    which is not among the sources.  Section 6 of the specification
    lists the token types the transfer core reports: SETUP, IN, OUT
    and SOF.  The engine only ever compares [usb_core.tok] for
    equality with one of them. *)
Inductive PID : Type := PID_SETUP | PID_OUT | PID_IN | PID_SOF.

Definition PID_eqb (a b : PID) : bool :=
  match a, b with
  | PID_SETUP, PID_SETUP | PID_OUT, PID_OUT
  | PID_IN, PID_IN | PID_SOF, PID_SOF => true
  | _, _ => false
  end.

(** ** The transfer core, seen from the engine

    [UsbTransfer] ([usbcore/sm/transfer.py]) is an external
    collaborator: the signals it drives are inputs of every cycle. *)
Module Core.
Record t : Type := mk {
  tok : PID;                 (* usb_core.tok *)
  endp : Z;                  (* usb_core.endp, 4 bits *)
  idle : bool;
  start : bool;
  setup : bool;
  commit : bool;
  end_ : bool;               (* usb_core.end *)
  data_end : bool;
  error : bool;
  usb_reset : bool;
  data_recv_put : bool;
  data_recv_payload : Z;     (* 8 bits *)
  data_send_get : bool
}.

(** A cycle on which the core reports nothing. *)
Definition quiet : t :=
  mk PID_SOF 0 false false false false false false false false false 0 false.
End Core.

(** Signals of the optional debug bridge ([USBWishboneBridge]). *)
Module Bridge.
Record t : Type := mk {
  n_debug_in_progress : bool;
  sink_data : Z;
  sink_valid : bool;
  send_ack : bool
}.
Definition off : t := mk true 0 false false.
End Bridge.

(** ** CPU-visible registers *)

Inductive reg : Type :=
| ENABLE_OUT0 | ENABLE_OUT1 | ENABLE_IN0 | ENABLE_IN1 | ADDRESS
| SETUP_CTRL | IN_DATA | IN_CTRL | OUT_CTRL.

Definition reg_eqb (a b : reg) : bool :=
  match a, b with
  | ENABLE_OUT0, ENABLE_OUT0 | ENABLE_OUT1, ENABLE_OUT1
  | ENABLE_IN0, ENABLE_IN0 | ENABLE_IN1, ENABLE_IN1
  | ADDRESS, ADDRESS | SETUP_CTRL, SETUP_CTRL
  | IN_DATA, IN_DATA | IN_CTRL, IN_CTRL | OUT_CTRL, OUT_CTRL => true
  | _, _ => false
  end.

(** [CSRStorage(w)] of the register bus: [storage] holds the last
    value written and [re] is high during the one cycle that follows
    a write, the cycle on which [storage] first shows the new value. *)
Module Csr.
Record t : Type := mk { storage : Z; re : bool }.

Definition reset : t := mk 0 false.

Definition step (w : Z) (wr : option Z) (c : t) : t :=
  match wr with
  | Some v => mk (trunc w v) true
  | None => mk (storage c) false
  end.
End Csr.

(** Everything the engine samples on one cycle. *)
Record inputs : Type := mk_inputs {
  core : Core.t;
  bridge : Bridge.t;
  usb_pullup : bool;            (* iobuf.usb_pullup *)
  cpu : option (reg * Z)        (* at most one bus write per cycle *)
}.

(** The value written to register [r] on this cycle, if any. *)
Definition wr (r : reg) (i : inputs) : option Z :=
  match cpu i with
  | Some (r', v) => if reg_eqb r r' then Some v else None
  | None => None
  end.

(** ** FIFOs *)

(** Modelled from the spec: [migen.genlib.fifo.SyncFIFOBuffered], a
    library component that is not among the sources, as the bounded
    single-producer single-consumer byte queue of sections 3 and 5:
    an ordered byte sequence of at most [depth] entries, readable when
    it is non-empty, whose head is [dout].  [we] appends [din] when
    there is room, [re] removes the head, and the synchronous reset
    added by [ResetInserter] empties it and wins over both. *)
Module Fifo.
Definition t : Type := list Z.

Definition empty : t := [].

Definition readable (f : t) : bool :=
  match f with [] => false | _ :: _ => true end.

Definition dout (f : t) : Z := hd 0 f.

Definition writable (depth : nat) (f : t) : bool :=
  Nat.ltb (length f) depth.

Definition step (depth : nat) (reset we : bool) (din : Z) (re : bool)
    (f : t) : t :=
  if reset then empty
  else
    let kept := if re then tl f else f in
    if we && writable depth f then kept ++ [trunc 8 din] else kept.
End Fifo.

(** ** Registers of the design *)

(** [stage = FSM(reset_state="IDLE")] *)
Inductive Stage : Type :=
| IDLE | CHECK_TOK | DEBUG | SETUP | CONTROL_IN | CONTROL_OUT
| WAIT_CONTROL_ACK_IN | WAIT_CONTROL_ACK_OUT | IN | OUT | WAIT_DONE.

Module SetupHandler.
Definition depth : nat := 10.

Record t : Type := mk {
  buf : Fifo.t;              (* self.data, depth 10 *)
  buf_reset : bool;          (* buf.reset, driven from sync *)
  check_reset : bool;
  data_bytes : Z;            (* Signal(3) *)
  have_data_stage : bool;
  epno : Z;                  (* Signal(4) *)
  ctrl : Csr.t               (* CSRStorage(1) *)
}.

Definition reset : t := mk Fifo.empty false false 0 false 0 Csr.reset.

(** [self.empty.eq(~buf.readable)] *)
Definition empty (h : t) : bool := negb (Fifo.readable (buf h)).

(** [self.response.eq(0)] *)
Definition response (h : t) : bool := false.
End SetupHandler.

Module InHandler.
Definition depth : nat := 128.

Record t : Type := mk {
  dtbs : Z;                  (* Signal(16, reset=0xffff) *)
  buf : Fifo.t;              (* self.data_buf, depth 128 *)
  queued : bool;
  data : Csr.t;              (* CSRStorage(8) *)
  ctrl : Csr.t               (* CSRStorage(5) *)
}.

Definition reset : t := mk 65535 Fifo.empty false Csr.reset Csr.reset.

(** [epno.eq(self.ctrl.storage[0:4])] *)
Definition epno (h : t) : Z := trunc 4 (Csr.storage (ctrl h)).

(** [reset_fifo.eq(self.ctrl.storage[4])] *)
Definition reset_fifo (h : t) : bool := Z.testbit (Csr.storage (ctrl h)) 4.

(** [is_in_packet.eq(usb_core.tok == PID.IN)] *)
Definition is_in_packet (c : Core.t) : bool := PID_eqb (Core.tok c) PID_IN.

(** [is_our_packet.eq(usb_core.endp == epno)] *)
Definition is_our_packet (h : t) (c : Core.t) : bool := Core.endp c =? epno h.

(** [If(usb_core.endp == epno, self.response.eq(queued))
     .Else(self.response.eq(0))] *)
Definition response (h : t) (c : Core.t) : bool :=
  if Core.endp c =? epno h then queued h else false.

(** [self.dtb.eq(dtbs >> usb_core.endp)], a 1-bit signal. *)
Definition dtb (h : t) (c : Core.t) : bool :=
  Z.testbit (Z.shiftr (dtbs h) (Core.endp c)) 0.

(** [self.data_out.eq(buf.dout)], [self.data_out_have.eq(buf.readable)] *)
Definition data_out (h : t) : Z := Fifo.dout (buf h).
Definition data_out_have (h : t) : bool := Fifo.readable (buf h).
End InHandler.

Module OutHandler.
Definition depth : nat := 128.

Record t : Type := mk {
  buf : Fifo.t;              (* self.data_buf, depth 128 *)
  have_data : bool;
  epno : Z;                  (* Signal(4) *)
  is_idle : bool;            (* Signal(reset=1) *)
  ctrl : Csr.t               (* CSRStorage(2) *)
}.

Definition reset : t := mk Fifo.empty false 0 true Csr.reset.

(** [self.response.eq(have_data & self.ctrl.storage[1])] *)
Definition response (h : t) : bool :=
  have_data h && Z.testbit (Csr.storage (ctrl h)) 1.

(** [is_out_packet.eq(usb_core.tok == PID.OUT)] *)
Definition is_out_packet (c : Core.t) : bool := PID_eqb (Core.tok c) PID_OUT.

(** [is_our_packet.eq(usb_core.endp == epno)] *)
Definition is_our_packet (h : t) (c : Core.t) : bool := Core.endp c =? epno h.
End OutHandler.

(** Registers of [TriEndpointInterface] together with its handlers. *)
Record state : Type := mk_state {
  stage : Stage;
  setup_data_stage : bool;
  setup_data_byte : Z;          (* Signal(4) *)
  setup_is_in : bool;
  invalid_states : Z;           (* Signal(8) *)
  tok_waits : Z;                (* Signal(8) *)
  error_count : Z;              (* Signal(8) *)
  usb_core_addr : Z;            (* usb_core.addr, written by NextValue *)
  enable_out0 : Csr.t;          (* CSRStorage(8) *)
  enable_out1 : Csr.t;
  enable_in0 : Csr.t;
  enable_in1 : Csr.t;
  address : Csr.t;              (* CSRStorage(7) under ResetInserter *)
  setup_handler : SetupHandler.t;
  in_handler : InHandler.t;
  out_handler : OutHandler.t
}.

(** Power-on values of all registers. *)
Definition reset_state : state :=
  mk_state IDLE false 0 false 0 0 0 0
           Csr.reset Csr.reset Csr.reset Csr.reset Csr.reset
           SetupHandler.reset InHandler.reset OutHandler.reset.

(** ** Stall policy *)

(** [self.eps_idx.eq(Cat(usb_core.endp, usb_core.tok == PID.IN))],
    a 5-bit signal. *)
Definition eps_idx (c : Core.t) : Z :=
  trunc 5 (Cat 4 (Core.endp c) (Z.b2z (PID_eqb (Core.tok c) PID_IN))).

(** [enable.eq(Cat(self.enable_out0.storage, self.enable_out1.storage,
                   self.enable_in0.storage, self.enable_in1.storage))] *)
Definition enable (s : state) : Z :=
  trunc 32
    (Cat 8 (Csr.storage (enable_out0 s))
       (Cat 8 (Csr.storage (enable_out1 s))
          (Cat 8 (Csr.storage (enable_in0 s))
             (Csr.storage (enable_in1 s))))).

(** [should_stall.eq(~(enable >> eps_idx))]: the 1-bit target keeps
    bit 0 of the complemented shift. *)
Definition should_stall (s : state) (c : Core.t) : bool :=
  Z.testbit (Z.lnot (Z.shiftr (enable s) (eps_idx c))) 0.

(** ** The stage machine: combinational part

    [wires] gathers the signals that the [stage.act] bodies drive.  A
    signal the active stage does not assign keeps its reset value; the
    three [trigger] signals also have drivers outside the machine, so
    the machine's assignment to them is recorded as an override. *)
Record wires : Type := mk_wires {
  next_state : Stage;
  stage_num : Z;
  addr_next : option Z;            (* NextValue(usb_core.addr, _) *)
  tok_waits_next : option Z;       (* NextValue(tok_waits, _) *)
  sta : bool;                      (* usb_core.sta *)
  arm : bool;                      (* usb_core.arm *)
  dtb : bool;                      (* usb_core.dtb *)
  data_send_have : bool;
  data_send_payload : Z;
  setup_data_byte_rst : bool;
  setup_data_byte_ce : bool;
  invalid_state_ce : bool;
  setup_recv_payload : Z;          (* setup_handler.data_recv_payload *)
  setup_recv_put : bool;           (* setup_handler.data_recv_put *)
  setup_trigger_act : option bool; (* setup_handler.trigger *)
  dtb_reset : bool;                (* in_handler.dtb_reset *)
  data_out_advance : bool;         (* in_handler.data_out_advance *)
  in_trigger_act : option bool;    (* in_handler.trigger *)
  out_recv_payload : Z;            (* out_handler.data_recv_payload *)
  out_recv_put : bool;             (* out_handler.data_recv_put *)
  ctrl_response : bool;            (* out_handler.ctrl_response *)
  out_trigger_act : option bool    (* out_handler.trigger *)
}.

(** Every signal at its reset value; the machine stays where it is. *)
Definition undriven (st : Stage) : wires :=
  mk_wires st 0 None None false false false false 0 false false false
           0 false None false false None 0 false false None.

(** A combinational statement, and Migen's ways of combining them. *)
Definition stmt : Type := wires -> wires.

Definition block (l : list stmt) : stmt :=
  fun w => fold_left (fun acc s => s acc) l w.

(** [If(c, t...).Else(e...)]; [.Elif] is an [If_] in the else part. *)
Definition If_ (c : bool) (t e : list stmt) : stmt :=
  if c then block t else block e.

Definition NextState (v : Stage) : stmt := fun w =>
  mk_wires v (stage_num w) (addr_next w) (tok_waits_next w) (sta w) (arm w)
    (dtb w) (data_send_have w) (data_send_payload w) (setup_data_byte_rst w)
    (setup_data_byte_ce w) (invalid_state_ce w) (setup_recv_payload w)
    (setup_recv_put w) (setup_trigger_act w) (dtb_reset w)
    (data_out_advance w) (in_trigger_act w) (out_recv_payload w)
    (out_recv_put w) (ctrl_response w) (out_trigger_act w).

Definition set_stage_num (v : Z) : stmt := fun w =>
  mk_wires (next_state w) v (addr_next w) (tok_waits_next w) (sta w) (arm w)
    (dtb w) (data_send_have w) (data_send_payload w) (setup_data_byte_rst w)
    (setup_data_byte_ce w) (invalid_state_ce w) (setup_recv_payload w)
    (setup_recv_put w) (setup_trigger_act w) (dtb_reset w)
    (data_out_advance w) (in_trigger_act w) (out_recv_payload w)
    (out_recv_put w) (ctrl_response w) (out_trigger_act w).

Definition NextValue_addr (v : Z) : stmt := fun w =>
  mk_wires (next_state w) (stage_num w) (Some v) (tok_waits_next w) (sta w)
    (arm w) (dtb w) (data_send_have w) (data_send_payload w)
    (setup_data_byte_rst w) (setup_data_byte_ce w) (invalid_state_ce w)
    (setup_recv_payload w) (setup_recv_put w) (setup_trigger_act w)
    (dtb_reset w) (data_out_advance w) (in_trigger_act w)
    (out_recv_payload w) (out_recv_put w) (ctrl_response w)
    (out_trigger_act w).

Definition NextValue_tok_waits (v : Z) : stmt := fun w =>
  mk_wires (next_state w) (stage_num w) (addr_next w) (Some v) (sta w)
    (arm w) (dtb w) (data_send_have w) (data_send_payload w)
    (setup_data_byte_rst w) (setup_data_byte_ce w) (invalid_state_ce w)
    (setup_recv_payload w) (setup_recv_put w) (setup_trigger_act w)
    (dtb_reset w) (data_out_advance w) (in_trigger_act w)
    (out_recv_payload w) (out_recv_put w) (ctrl_response w)
    (out_trigger_act w).

Definition set_sta (v : bool) : stmt := fun w =>
  mk_wires (next_state w) (stage_num w) (addr_next w) (tok_waits_next w) v
    (arm w) (dtb w) (data_send_have w) (data_send_payload w)
    (setup_data_byte_rst w) (setup_data_byte_ce w) (invalid_state_ce w)
    (setup_recv_payload w) (setup_recv_put w) (setup_trigger_act w)
    (dtb_reset w) (data_out_advance w) (in_trigger_act w)
    (out_recv_payload w) (out_recv_put w) (ctrl_response w)
    (out_trigger_act w).

Definition set_arm (v : bool) : stmt := fun w =>
  mk_wires (next_state w) (stage_num w) (addr_next w) (tok_waits_next w)
    (sta w) v (dtb w) (data_send_have w) (data_send_payload w)
    (setup_data_byte_rst w) (setup_data_byte_ce w) (invalid_state_ce w)
    (setup_recv_payload w) (setup_recv_put w) (setup_trigger_act w)
    (dtb_reset w) (data_out_advance w) (in_trigger_act w)
    (out_recv_payload w) (out_recv_put w) (ctrl_response w)
    (out_trigger_act w).

Definition set_dtb (v : bool) : stmt := fun w =>
  mk_wires (next_state w) (stage_num w) (addr_next w) (tok_waits_next w)
    (sta w) (arm w) v (data_send_have w) (data_send_payload w)
    (setup_data_byte_rst w) (setup_data_byte_ce w) (invalid_state_ce w)
    (setup_recv_payload w) (setup_recv_put w) (setup_trigger_act w)
    (dtb_reset w) (data_out_advance w) (in_trigger_act w)
    (out_recv_payload w) (out_recv_put w) (ctrl_response w)
    (out_trigger_act w).

Definition set_data_send_have (v : bool) : stmt := fun w =>
  mk_wires (next_state w) (stage_num w) (addr_next w) (tok_waits_next w)
    (sta w) (arm w) (dtb w) v (data_send_payload w)
    (setup_data_byte_rst w) (setup_data_byte_ce w) (invalid_state_ce w)
    (setup_recv_payload w) (setup_recv_put w) (setup_trigger_act w)
    (dtb_reset w) (data_out_advance w) (in_trigger_act w)
    (out_recv_payload w) (out_recv_put w) (ctrl_response w)
    (out_trigger_act w).

Definition set_data_send_payload (v : Z) : stmt := fun w =>
  mk_wires (next_state w) (stage_num w) (addr_next w) (tok_waits_next w)
    (sta w) (arm w) (dtb w) (data_send_have w) v
    (setup_data_byte_rst w) (setup_data_byte_ce w) (invalid_state_ce w)
    (setup_recv_payload w) (setup_recv_put w) (setup_trigger_act w)
    (dtb_reset w) (data_out_advance w) (in_trigger_act w)
    (out_recv_payload w) (out_recv_put w) (ctrl_response w)
    (out_trigger_act w).

Definition set_setup_data_byte_rst (v : bool) : stmt := fun w =>
  mk_wires (next_state w) (stage_num w) (addr_next w) (tok_waits_next w)
    (sta w) (arm w) (dtb w) (data_send_have w) (data_send_payload w)
    v (setup_data_byte_ce w) (invalid_state_ce w)
    (setup_recv_payload w) (setup_recv_put w) (setup_trigger_act w)
    (dtb_reset w) (data_out_advance w) (in_trigger_act w)
    (out_recv_payload w) (out_recv_put w) (ctrl_response w)
    (out_trigger_act w).

Definition set_setup_data_byte_ce (v : bool) : stmt := fun w =>
  mk_wires (next_state w) (stage_num w) (addr_next w) (tok_waits_next w)
    (sta w) (arm w) (dtb w) (data_send_have w) (data_send_payload w)
    (setup_data_byte_rst w) v (invalid_state_ce w)
    (setup_recv_payload w) (setup_recv_put w) (setup_trigger_act w)
    (dtb_reset w) (data_out_advance w) (in_trigger_act w)
    (out_recv_payload w) (out_recv_put w) (ctrl_response w)
    (out_trigger_act w).

Definition set_invalid_state_ce (v : bool) : stmt := fun w =>
  mk_wires (next_state w) (stage_num w) (addr_next w) (tok_waits_next w)
    (sta w) (arm w) (dtb w) (data_send_have w) (data_send_payload w)
    (setup_data_byte_rst w) (setup_data_byte_ce w) v
    (setup_recv_payload w) (setup_recv_put w) (setup_trigger_act w)
    (dtb_reset w) (data_out_advance w) (in_trigger_act w)
    (out_recv_payload w) (out_recv_put w) (ctrl_response w)
    (out_trigger_act w).

Definition set_setup_recv_payload (v : Z) : stmt := fun w =>
  mk_wires (next_state w) (stage_num w) (addr_next w) (tok_waits_next w)
    (sta w) (arm w) (dtb w) (data_send_have w) (data_send_payload w)
    (setup_data_byte_rst w) (setup_data_byte_ce w) (invalid_state_ce w)
    v (setup_recv_put w) (setup_trigger_act w)
    (dtb_reset w) (data_out_advance w) (in_trigger_act w)
    (out_recv_payload w) (out_recv_put w) (ctrl_response w)
    (out_trigger_act w).

Definition set_setup_recv_put (v : bool) : stmt := fun w =>
  mk_wires (next_state w) (stage_num w) (addr_next w) (tok_waits_next w)
    (sta w) (arm w) (dtb w) (data_send_have w) (data_send_payload w)
    (setup_data_byte_rst w) (setup_data_byte_ce w) (invalid_state_ce w)
    (setup_recv_payload w) v (setup_trigger_act w)
    (dtb_reset w) (data_out_advance w) (in_trigger_act w)
    (out_recv_payload w) (out_recv_put w) (ctrl_response w)
    (out_trigger_act w).

Definition set_setup_trigger (v : bool) : stmt := fun w =>
  mk_wires (next_state w) (stage_num w) (addr_next w) (tok_waits_next w)
    (sta w) (arm w) (dtb w) (data_send_have w) (data_send_payload w)
    (setup_data_byte_rst w) (setup_data_byte_ce w) (invalid_state_ce w)
    (setup_recv_payload w) (setup_recv_put w) (Some v)
    (dtb_reset w) (data_out_advance w) (in_trigger_act w)
    (out_recv_payload w) (out_recv_put w) (ctrl_response w)
    (out_trigger_act w).

Definition set_dtb_reset (v : bool) : stmt := fun w =>
  mk_wires (next_state w) (stage_num w) (addr_next w) (tok_waits_next w)
    (sta w) (arm w) (dtb w) (data_send_have w) (data_send_payload w)
    (setup_data_byte_rst w) (setup_data_byte_ce w) (invalid_state_ce w)
    (setup_recv_payload w) (setup_recv_put w) (setup_trigger_act w)
    v (data_out_advance w) (in_trigger_act w)
    (out_recv_payload w) (out_recv_put w) (ctrl_response w)
    (out_trigger_act w).

Definition set_data_out_advance (v : bool) : stmt := fun w =>
  mk_wires (next_state w) (stage_num w) (addr_next w) (tok_waits_next w)
    (sta w) (arm w) (dtb w) (data_send_have w) (data_send_payload w)
    (setup_data_byte_rst w) (setup_data_byte_ce w) (invalid_state_ce w)
    (setup_recv_payload w) (setup_recv_put w) (setup_trigger_act w)
    (dtb_reset w) v (in_trigger_act w)
    (out_recv_payload w) (out_recv_put w) (ctrl_response w)
    (out_trigger_act w).

Definition set_in_trigger (v : bool) : stmt := fun w =>
  mk_wires (next_state w) (stage_num w) (addr_next w) (tok_waits_next w)
    (sta w) (arm w) (dtb w) (data_send_have w) (data_send_payload w)
    (setup_data_byte_rst w) (setup_data_byte_ce w) (invalid_state_ce w)
    (setup_recv_payload w) (setup_recv_put w) (setup_trigger_act w)
    (dtb_reset w) (data_out_advance w) (Some v)
    (out_recv_payload w) (out_recv_put w) (ctrl_response w)
    (out_trigger_act w).

Definition set_out_recv_payload (v : Z) : stmt := fun w =>
  mk_wires (next_state w) (stage_num w) (addr_next w) (tok_waits_next w)
    (sta w) (arm w) (dtb w) (data_send_have w) (data_send_payload w)
    (setup_data_byte_rst w) (setup_data_byte_ce w) (invalid_state_ce w)
    (setup_recv_payload w) (setup_recv_put w) (setup_trigger_act w)
    (dtb_reset w) (data_out_advance w) (in_trigger_act w)
    v (out_recv_put w) (ctrl_response w) (out_trigger_act w).

Definition set_out_recv_put (v : bool) : stmt := fun w =>
  mk_wires (next_state w) (stage_num w) (addr_next w) (tok_waits_next w)
    (sta w) (arm w) (dtb w) (data_send_have w) (data_send_payload w)
    (setup_data_byte_rst w) (setup_data_byte_ce w) (invalid_state_ce w)
    (setup_recv_payload w) (setup_recv_put w) (setup_trigger_act w)
    (dtb_reset w) (data_out_advance w) (in_trigger_act w)
    (out_recv_payload w) v (ctrl_response w) (out_trigger_act w).

Definition set_ctrl_response (v : bool) : stmt := fun w =>
  mk_wires (next_state w) (stage_num w) (addr_next w) (tok_waits_next w)
    (sta w) (arm w) (dtb w) (data_send_have w) (data_send_payload w)
    (setup_data_byte_rst w) (setup_data_byte_ce w) (invalid_state_ce w)
    (setup_recv_payload w) (setup_recv_put w) (setup_trigger_act w)
    (dtb_reset w) (data_out_advance w) (in_trigger_act w)
    (out_recv_payload w) (out_recv_put w) v (out_trigger_act w).

Definition set_out_trigger (v : bool) : stmt := fun w =>
  mk_wires (next_state w) (stage_num w) (addr_next w) (tok_waits_next w)
    (sta w) (arm w) (dtb w) (data_send_have w) (data_send_payload w)
    (setup_data_byte_rst w) (setup_data_byte_ce w) (invalid_state_ce w)
    (setup_recv_payload w) (setup_recv_put w) (setup_trigger_act w)
    (dtb_reset w) (data_out_advance w) (in_trigger_act w)
    (out_recv_payload w) (out_recv_put w) (ctrl_response w) (Some v).

(** [debug_packet_detected.eq(~self.debug_bridge.n_debug_in_progress)],
    wired only when the interface is built with [debug=True]. *)
Definition debug_packet_detected (debug : bool) (i : inputs) : bool :=
  debug && negb (Bridge.n_debug_in_progress (bridge i)).

(** The body given to [stage.act] for each stage, statement by
    statement in source order. *)
Definition act (debug : bool) (s : state) (i : inputs) : list stmt :=
  let usb_core := core i in
  let setup_h := setup_handler s in
  let in_h := in_handler s in
  let out_h := out_handler s in
  let stall := should_stall s usb_core in
  let tok_is p := PID_eqb (Core.tok usb_core) p in
  match stage s with
  | IDLE =>
      [ set_stage_num 0;
        NextValue_addr (Csr.storage (address s));
        set_setup_data_byte_rst true;
        If_ (Core.start usb_core) [ NextState CHECK_TOK ] [] ]
  | CHECK_TOK =>
      [ set_stage_num 1;
        NextValue_tok_waits (trunc 8 (tok_waits s + 1));
        If_ (Core.idle usb_core)
          [ NextState IDLE ]
          [ If_ (tok_is PID_SETUP)
              [ NextState SETUP;
                (* SETUP packets must be ACKed *)
                set_sta false;
                set_arm true ]
              [ If_ (tok_is PID_IN)
                  [ NextState IN;
                    set_sta stall;
                    set_arm (InHandler.response in_h usb_core || stall) ]
                  [ If_ (tok_is PID_OUT)
                      [ NextState OUT;
                        set_sta stall;
                        set_arm (OutHandler.response out_h || stall) ]
                      [ NextState IDLE ] ] ] ] ]
  | DEBUG =>
      if debug then
        [ set_stage_num 2;
          set_data_send_payload (Bridge.sink_data (bridge i));
          set_data_send_have (Bridge.sink_valid (bridge i));
          set_sta false;
          If_ (Core.endp usb_core =? 0)
            [ set_arm (Bridge.send_ack (bridge i)
                       || Bridge.sink_valid (bridge i)) ]
            [ set_arm false ];
          set_dtb true;
          If_ (negb (debug_packet_detected debug i)) [ NextState IDLE ] [] ]
      else
        [ NextState IDLE ]
  | SETUP =>
      [ set_stage_num 3;
        (* SETUP packet *)
        set_setup_recv_payload (Core.data_recv_payload usb_core);
        set_setup_recv_put (Core.data_recv_put usb_core);
        set_dtb_reset true;
        (* We aren't allowed to STALL a SETUP packet *)
        set_sta false;
        (* Always ACK a SETUP packet *)
        set_arm true;
        set_setup_trigger (Core.commit usb_core);
        set_setup_data_byte_ce (Core.data_recv_put usb_core);
        If_ (debug_packet_detected debug i) [ NextState DEBUG ] [];
        If_ (Core.setup usb_core)
          [ If_ (setup_is_in s)
              [ If_ (setup_data_stage s)
                  [ NextState CONTROL_IN;
                    set_sta (negb (OutHandler.response out_h) && stall);
                    set_arm (InHandler.response in_h usb_core || stall) ]
                  [ NextState WAIT_CONTROL_ACK_IN ] ]
              [ If_ (setup_data_stage s)
                  [ NextState CONTROL_OUT;
                    set_sta (negb (OutHandler.response out_h) && stall);
                    set_arm (OutHandler.response out_h || stall) ]
                  [ NextState WAIT_CONTROL_ACK_OUT ] ] ]
          [ If_ (Core.end_ usb_core)
              [ set_invalid_state_ce true;
                NextState IDLE ]
              [] ] ]
  | CONTROL_IN =>
      [ set_stage_num 4;
        If_ (Core.endp usb_core =? 0)
          [ If_ (tok_is PID_IN)
              [ set_data_send_have (InHandler.data_out_have in_h);
                set_data_send_payload (InHandler.data_out in_h);
                set_data_out_advance (Core.data_send_get usb_core);
                set_sta stall;
                set_arm (stall || (SetupHandler.empty setup_h
                                   && InHandler.response in_h usb_core));
                set_dtb (InHandler.dtb in_h usb_core);
                set_in_trigger (Core.commit usb_core) ]
              [ If_ (tok_is PID_OUT)
                  [ set_sta false;
                    set_arm true;
                    (* After an IN transfer, the host sends an OUT
                       packet.  We must ACK this and then return to
                       IDLE. *)
                    set_ctrl_response true;
                    NextState WAIT_DONE ]
                  [] ] ]
          [] ]
  | CONTROL_OUT =>
      [ set_stage_num 5;
        If_ (Core.endp usb_core =? 0)
          [ If_ (tok_is PID_OUT)
              [ set_out_recv_payload (Core.data_recv_payload usb_core);
                set_out_recv_put (Core.data_recv_put usb_core);
                set_sta stall;
                set_arm (stall || (SetupHandler.empty setup_h
                                   && OutHandler.response out_h));
                set_out_trigger (Core.commit usb_core) ]
              [ If_ (tok_is PID_IN)
                  [ set_sta false;
                    set_arm (SetupHandler.empty setup_h);
                    NextState WAIT_DONE ]
                  [] ] ]
          [] ]
  | WAIT_CONTROL_ACK_IN =>
      (* ACK the IN packet by sending a single OUT packet with no data *)
      [ set_stage_num 6;
        set_sta false;
        (* Only continue once the buffer has been drained. *)
        set_arm (SetupHandler.empty setup_h);
        set_dtb true;
        If_ (Core.end_ usb_core && SetupHandler.empty setup_h)
          [ NextState IDLE ] [] ]
  | WAIT_CONTROL_ACK_OUT =>
      (* ACK the OUT packet by sending a single IN packet with no data *)
      [ set_stage_num 7;
        set_sta false;
        (* Only continue once the buffer has been drained. *)
        set_arm (SetupHandler.empty setup_h);
        set_dtb true;
        If_ (Core.data_end usb_core && SetupHandler.empty setup_h)
          [ NextState IDLE ] [] ]
  | IN =>
      [ set_stage_num 8;
        set_data_send_have (InHandler.data_out_have in_h);
        set_data_send_payload (InHandler.data_out in_h);
        set_data_out_advance (Core.data_send_get usb_core);
        set_sta stall;
        set_arm (InHandler.response in_h usb_core || stall);
        set_dtb (InHandler.dtb in_h usb_core);
        set_in_trigger (Core.commit usb_core);
        If_ (Core.end_ usb_core) [ NextState IDLE ] [] ]
  | OUT =>
      [ set_stage_num 9;
        (* OUT packet (host-to-device) *)
        set_out_recv_payload (Core.data_recv_payload usb_core);
        set_out_recv_put (Core.data_recv_put usb_core);
        set_sta stall;
        set_arm (OutHandler.response out_h || stall);
        set_out_trigger (Core.commit usb_core);
        If_ (Core.end_ usb_core) [ NextState IDLE ] [] ]
  | WAIT_DONE =>
      [ set_stage_num 10;
        set_sta false;
        set_arm true;
        If_ (Core.end_ usb_core) [ NextState IDLE ] [] ]
  end.

(** The signals the stage machine drives on this cycle. *)
Definition comb (debug : bool) (s : state) (i : inputs) : wires :=
  block (act debug s i) (undriven (stage s)).

(** ** Event triggers

    Each handler's [trigger] has three drivers, in this order: the
    interface's own [If(~iobuf.usb_pullup, *trigger_all)], then the
    handler's unconditional assignment, then the stage machine. *)
Definition resolve (top handler : bool) (machine : option bool) : bool :=
  let t := top in
  let t := handler in
  match machine with Some v => v | None => t end.

(** [self.trigger.eq(buf.readable & usb_core.end)] in [SetupHandler]. *)
Definition setup_trigger (debug : bool) (s : state) (i : inputs) : bool :=
  resolve (negb (usb_pullup i))
    (Fifo.readable (SetupHandler.buf (setup_handler s))
     && Core.end_ (core i))
    (setup_trigger_act (comb debug s i)).

(** [self.trigger.eq(is_in_packet & is_our_packet & usb_core.commit)]
    in [InHandler]. *)
Definition in_trigger (debug : bool) (s : state) (i : inputs) : bool :=
  resolve (negb (usb_pullup i))
    (InHandler.is_in_packet (core i)
     && InHandler.is_our_packet (in_handler s) (core i)
     && Core.commit (core i))
    (in_trigger_act (comb debug s i)).

(** [self.trigger.eq((usb_core.commit & is_our_packet & is_out_packet
                      & self.response) | self.ctrl_response)]
    in [OutHandler]. *)
Definition out_trigger (debug : bool) (s : state) (i : inputs) : bool :=
  resolve (negb (usb_pullup i))
    ((Core.commit (core i)
      && OutHandler.is_our_packet (out_handler s) (core i)
      && OutHandler.is_out_packet (core i)
      && OutHandler.response (out_handler s))
     || ctrl_response (comb debug s i))
    (out_trigger_act (comb debug s i)).

(** ** Register updates *)

(** [SetupHandler]'s [self.sync.usb_12] and its FIFO. *)
Definition SetupHandler_step (w : wires) (i : inputs) (h : SetupHandler.t)
    : SetupHandler.t :=
  let usb_core := core i in
  let is_setup := PID_eqb (Core.tok usb_core) PID_SETUP in
  let put := setup_recv_put w in
  let payload := setup_recv_payload w in
  let fresh := SetupHandler.check_reset h && is_setup in
  (* If(usb_core.tok == PID.SETUP, buf.din.eq(...), buf.we.eq(...)) *)
  let we := if is_setup then put else false in
  (* buf.re.eq(self.ctrl.re & self.ctrl.storage[0]) *)
  let re := Csr.re (SetupHandler.ctrl h)
            && Z.testbit (Csr.storage (SetupHandler.ctrl h)) 0 in
  let data_bytes0 :=
    if fresh then 0 else SetupHandler.data_bytes h in
  let have0 :=
    if fresh then false else SetupHandler.have_data_stage h in
  SetupHandler.mk
    (Fifo.step SetupHandler.depth (SetupHandler.buf_reset h) we payload re
       (SetupHandler.buf h))
    fresh
    (Core.start usb_core)
    (if put then trunc 3 (SetupHandler.data_bytes h + 1) else data_bytes0)
    (if put && nonzero payload
        && ((SetupHandler.data_bytes h =? 6)
            || (SetupHandler.data_bytes h =? 7))
     then true else have0)
    (if fresh then Core.endp usb_core else SetupHandler.epno h)
    (Csr.step 1 (wr SETUP_CTRL i) (SetupHandler.ctrl h)).

(** [InHandler]'s [self.sync] and its FIFO.  [buf.reset] has no
    driver, so the FIFO is never reset. *)
Definition InHandler_step (w : wires) (i : inputs) (h : InHandler.t)
    : InHandler.t :=
  let usb_core := core i in
  let epno := InHandler.epno h in
  let ours := InHandler.is_in_packet usb_core
              && InHandler.is_our_packet h usb_core in
  let dtbs' :=
    if dtb_reset w then
      trunc 16 (Z.lor (InHandler.dtbs h) (Z.shiftl 1 epno))
    else if Csr.re (InHandler.ctrl h) then InHandler.dtbs h
    else if Core.commit usb_core then
      if arm w && negb (sta w) then
        trunc 16 (Z.lxor (InHandler.dtbs h) (Z.shiftl 1 epno))
      else InHandler.dtbs h
    else InHandler.dtbs h in
  let queued' :=
    if dtb_reset w then InHandler.queued h
    else if Csr.re (InHandler.ctrl h) then negb (InHandler.reset_fifo h)
    else if Core.commit usb_core then
      if ours then false else InHandler.queued h
    else InHandler.queued h in
  InHandler.mk
    dtbs'
    (* buf.we.eq(self.data.re), buf.din.eq(self.data.storage),
       buf.re.eq(self.data_out_advance) *)
    (Fifo.step InHandler.depth false (Csr.re (InHandler.data h))
       (Csr.storage (InHandler.data h)) (data_out_advance w)
       (InHandler.buf h))
    queued'
    (Csr.step 8 (wr IN_DATA i) (InHandler.data h))
    (Csr.step 5 (wr IN_CTRL i) (InHandler.ctrl h)).

(** [OutHandler]'s [self.sync] and its FIFO. *)
Definition OutHandler_step (w : wires) (i : inputs) (h : OutHandler.t)
    : OutHandler.t :=
  let usb_core := core i in
  let readable := Fifo.readable (OutHandler.buf h) in
  OutHandler.mk
    (* buf.we.eq(self.data_recv_put),
       buf.re.eq(self.ctrl.storage[0] & self.ctrl.re) *)
    (Fifo.step OutHandler.depth false (out_recv_put w) (out_recv_payload w)
       (Z.testbit (Csr.storage (OutHandler.ctrl h)) 0
        && Csr.re (OutHandler.ctrl h))
       (OutHandler.buf h))
    (if Csr.re (OutHandler.ctrl h)
     then Z.testbit (Csr.storage (OutHandler.ctrl h)) 1
     else OutHandler.have_data h)
    (if OutHandler.is_out_packet usb_core
     then Core.endp usb_core else OutHandler.epno h)
    (if Core.commit usb_core && readable then true
     else if out_recv_put w then false
     else OutHandler.is_idle h)
    (Csr.step 2 (wr OUT_CTRL i) (OutHandler.ctrl h)).

(** One clock cycle of the whole interface. *)
Definition step (debug : bool) (s : state) (i : inputs) : state :=
  let usb_core := core i in
  let w := comb debug s i in
  let rst := Core.usb_reset usb_core in
  let payload := Core.data_recv_payload usb_core in
  let byte := setup_data_byte s in
  mk_state
    (* stage.reset.eq(usb_core.usb_reset) *)
    (if rst then IDLE else next_state w)
    (if setup_data_byte_rst w then false
     else if setup_data_byte_ce w
             && ((byte =? 6) || (byte =? 7)) && nonzero payload
          then true
          else setup_data_stage s)
    (if setup_data_byte_rst w then 0
     else if setup_data_byte_ce w then trunc 4 (byte + 1)
          else byte)
    (if setup_data_byte_rst w then false
     else if setup_data_byte_ce w && (byte =? 0)
          then Z.testbit payload 7
          else setup_is_in s)
    (if invalid_state_ce w
     then trunc 8 (invalid_states s + 1) else invalid_states s)
    (if rst then 0
     else match tok_waits_next w with
          | Some v => v | None => tok_waits s end)
    (if Core.error usb_core
     then trunc 8 (error_count s + 1) else error_count s)
    (if rst then 0
     else match addr_next w with
          | Some v => v | None => usb_core_addr s end)
    (Csr.step 8 (wr ENABLE_OUT0 i) (enable_out0 s))
    (Csr.step 8 (wr ENABLE_OUT1 i) (enable_out1 s))
    (Csr.step 8 (wr ENABLE_IN0 i) (enable_in0 s))
    (Csr.step 8 (wr ENABLE_IN1 i) (enable_in1 s))
    (* self.address.reset.eq(usb_core.usb_reset) *)
    (if rst then Csr.reset else Csr.step 7 (wr ADDRESS i) (address s))
    (SetupHandler_step w i (setup_handler s))
    (InHandler_step w i (in_handler s))
    (OutHandler_step w i (out_handler s)).

(** Running the interface over a sequence of cycles. *)
Fixpoint run (debug : bool) (s : state) (tr : list inputs) : state :=
  match tr with
  | [] => s
  | i :: tr' => run debug (step debug s i) tr'
  end.

(** States the interface can be in after power-on. *)
Definition reachable (debug : bool) (s : state) : Prop :=
  exists tr, s = run debug reset_state tr.

(** ** Well-formed registers and inputs *)

Definition in_width (w v : Z) : Prop := 0 <= v < 2 ^ w.

(** Every multi-bit register holds a value of its declared width. *)
Record wf (s : state) : Prop := mk_wf {
  wf_enable_out0 : in_width 8 (Csr.storage (enable_out0 s));
  wf_enable_out1 : in_width 8 (Csr.storage (enable_out1 s));
  wf_enable_in0 : in_width 8 (Csr.storage (enable_in0 s));
  wf_enable_in1 : in_width 8 (Csr.storage (enable_in1 s));
  wf_in_ctrl : in_width 5 (Csr.storage (InHandler.ctrl (in_handler s)));
  wf_out_ctrl : in_width 2 (Csr.storage (OutHandler.ctrl (out_handler s)));
  wf_dtbs : in_width 16 (InHandler.dtbs (in_handler s));
  wf_invalid_states : in_width 8 (invalid_states s)
}.

(** Sample traffic used in the examples below. *)

(** The core holds token [p] for endpoint [e] and raises no strobe. *)
Definition token (p : PID) (e : Z) : Core.t :=
  Core.mk p e false false false false false false false false false 0 false.

(** [usb_core.start] for token [p], endpoint [e]. *)
Definition token_start (p : PID) (e : Z) : Core.t :=
  Core.mk p e false true false false false false false false false 0 false.

(** One payload byte [b] of the data packet that follows the token. *)
Definition token_byte (p : PID) (e b : Z) : Core.t :=
  Core.mk p e false false false false false false false false true b false.

(** The transaction is accepted: [commit] and [end] together, with
    [setup] as well when the token is a SETUP. *)
Definition token_commit (p : PID) (e : Z) : Core.t :=
  Core.mk p e false false (PID_eqb p PID_SETUP) true true false
          false false false 0 false.

(** The transaction ends without being accepted. *)
Definition token_end (p : PID) (e : Z) : Core.t :=
  Core.mk p e false false false false true false false false false 0 false.

(** A cycle with core activity [c] and no bus write. *)
Definition bus_idle (c : Core.t) : inputs :=
  mk_inputs c Bridge.off true None.

(** A cycle with core activity [c] on which the CPU writes [v] to
    register [r]. *)
Definition bus_write (c : Core.t) (r : reg) (v : Z) : inputs :=
  mk_inputs c Bridge.off true (Some (r, v)).

(** A CPU write of [v] to register [r] while the core is quiet. *)
Definition cpu_write (r : reg) (v : Z) : inputs :=
  bus_write Core.quiet r v.

(** ** Notions used in the statements *)

(** First bitmap bit held by each of the four enable registers. *)
Definition enable_offset (r : reg) : option Z :=
  match r with
  | ENABLE_OUT0 => Some 0
  | ENABLE_OUT1 => Some 8
  | ENABLE_IN0 => Some 16
  | ENABLE_IN1 => Some 24
  | _ => None
  end.

(** The bitmap index the specification states: [2*E + D]. *)
Definition spec_index (c : Core.t) : Z :=
  2 * Core.endp c + Z.b2z (PID_eqb (Core.tok c) PID_IN).

(** The bitmap index the engine uses: [E + 16*D]. *)
Definition code_index (c : Core.t) : Z :=
  Core.endp c + 16 * Z.b2z (PID_eqb (Core.tok c) PID_IN).

(** The eight payload bytes of GET_DESCRIPTOR with [wLength = 18]. *)
Definition get_descriptor : list Z := [128; 6; 0; 1; 0; 0; 18; 0].

(** SET_ADDRESS: host-to-device, no data stage. *)
Definition set_address : list Z := [0; 5; 1; 0; 0; 0; 0; 0].

(** A device-to-host request with [wLength = 0]. *)
Definition in_request_no_data : list Z := [128; 0; 0; 0; 0; 0; 0; 0].

(** A SETUP token to endpoint 0 up to the last payload byte: the
    token, the gap before its DATA0 packet, then the payload. *)
Definition setup_token_trace (payload : list Z) : list inputs :=
  bus_idle (token_start PID_SETUP 0)
  :: bus_idle (token PID_SETUP 0)
  :: bus_idle (token PID_SETUP 0)
  :: bus_idle (token PID_SETUP 0)
  :: map (fun b => bus_idle (token_byte PID_SETUP 0 b)) payload.

(** The same token carried through to its handshake. *)
Definition setup_transaction (payload : list Z) : list inputs :=
  setup_token_trace payload ++ [bus_idle (token_commit PID_SETUP 0)].

(** Number of cycles of a run on which the Setup Handler's trigger
    is high, that is, on which its event is raised. *)
Fixpoint setup_events (debug : bool) (s : state) (tr : list inputs) : nat :=
  match tr with
  | [] => 0%nat
  | i :: tr' =>
      ((if setup_trigger debug s i then 1 else 0)
       + setup_events debug (step debug s i) tr')%nat
  end.

(** Number of [usb_core.commit] pulses in a sequence of cycles. *)
Fixpoint commit_pulses (tr : list inputs) : nat :=
  match tr with
  | [] => 0%nat
  | i :: tr' =>
      ((if Core.commit (core i) then 1 else 0) + commit_pulses tr')%nat
  end.

(** Equality of stages, as the machine's [Case(self.state, ...)] decides it. *)
Definition Stage_eqb (a b : Stage) : bool :=
  match a, b with
  | IDLE, IDLE | CHECK_TOK, CHECK_TOK | DEBUG, DEBUG | SETUP, SETUP
  | CONTROL_IN, CONTROL_IN | CONTROL_OUT, CONTROL_OUT
  | WAIT_CONTROL_ACK_IN, WAIT_CONTROL_ACK_IN
  | WAIT_CONTROL_ACK_OUT, WAIT_CONTROL_ACK_OUT
  | IN, IN | OUT, OUT | WAIT_DONE, WAIT_DONE => true
  | _, _ => false
  end.

(** The machine is in stage [st] on every cycle of the run. *)
Fixpoint stays_in (st : Stage) (debug : bool) (s : state)
    (tr : list inputs) : bool :=
  match tr with
  | [] => true
  | i :: tr' =>
      Stage_eqb (stage s) st && stays_in st debug (step debug s i) tr'
  end.

(** An OUT transaction on endpoint 0, enabled and armed by the CPU,
    that the core commits. *)
Definition out_transaction_trace : list inputs :=
  [ cpu_write ENABLE_OUT0 1;
    cpu_write OUT_CTRL 2;
    bus_idle (token_start PID_OUT 0);
    bus_idle (token PID_OUT 0);
    bus_idle (token_commit PID_OUT 0) ].

(** A SET_ADDRESS control transfer whose SETUP record the CPU has not
    read yet when the host polls for the status stage. *)
Definition unread_setup_trace : list inputs :=
  setup_transaction set_address
  ++ [ bus_idle (token_start PID_IN 0);
       bus_idle (token PID_IN 0);
       bus_idle (token_end PID_IN 0) ].

(** A write of the reset bit that lands while the engine handles a
    SETUP token: the CPU has queued endpoint 0, and writes
    [IN_CTRL = 0x10] on the cycle the engine enters the SETUP stage. *)
Definition reset_during_setup_trace : list inputs :=
  [ cpu_write IN_CTRL 0;
    bus_idle Core.quiet;
    bus_idle (token_start PID_SETUP 0);
    bus_write (token PID_SETUP 0) IN_CTRL 16 ].

(** ** Notions used for the rest of the interface *)

(** The handler whose answer decides a bulk token on this cycle: the
    In Handler in stage IN, the Out Handler in stage OUT, and in
    token classification the one that matches the token. *)
Definition bulk_response (s : state) (c : Core.t) : option bool :=
  match stage s with
  | IN => Some (InHandler.response (in_handler s) c)
  | OUT => Some (OutHandler.response (out_handler s))
  | CHECK_TOK =>
      if Core.idle c then None
      else if PID_eqb (Core.tok c) PID_SETUP then None
      else if PID_eqb (Core.tok c) PID_IN
           then Some (InHandler.response (in_handler s) c)
      else if PID_eqb (Core.tok c) PID_OUT
           then Some (OutHandler.response (out_handler s))
      else None
  | _ => None
  end.

(** A SETUP token to endpoint [e] up to its last payload byte. *)
Definition setup_token_on (e : Z) (payload : list Z) : list inputs :=
  bus_idle (token_start PID_SETUP e)
  :: bus_idle (token PID_SETUP e)
  :: bus_idle (token PID_SETUP e)
  :: bus_idle (token PID_SETUP e)
  :: map (fun b => bus_idle (token_byte PID_SETUP e b)) payload.

(** Where the SETUP stage goes when the core raises [setup]:
    [is_in] is bit 7 of the first byte, [data] tells whether the
    sixth or seventh byte is non-zero. *)
Definition stage_after_setup (is_in data : bool) : Stage :=
  if is_in
  then (if data then CONTROL_IN else WAIT_CONTROL_ACK_IN)
  else (if data then CONTROL_OUT else WAIT_CONTROL_ACK_OUT).

(** The arrows of the stage machine on a cycle without bus reset. *)
Definition allowed_next (debug : bool) (a b : Stage) : bool :=
  match a, b with
  | IDLE, (IDLE | CHECK_TOK) => true
  | CHECK_TOK, (IDLE | SETUP | IN | OUT) => true
  | DEBUG, IDLE => true
  | DEBUG, DEBUG => debug
  | SETUP, (IDLE | SETUP | CONTROL_IN | CONTROL_OUT
            | WAIT_CONTROL_ACK_IN | WAIT_CONTROL_ACK_OUT) => true
  | SETUP, DEBUG => debug
  | CONTROL_IN, (CONTROL_IN | WAIT_DONE) => true
  | CONTROL_OUT, (CONTROL_OUT | WAIT_DONE) => true
  | WAIT_CONTROL_ACK_IN, (WAIT_CONTROL_ACK_IN | IDLE) => true
  | WAIT_CONTROL_ACK_OUT, (WAIT_CONTROL_ACK_OUT | IDLE) => true
  | IN, (IN | IDLE) => true
  | OUT, (OUT | IDLE) => true
  | WAIT_DONE, (WAIT_DONE | IDLE) => true
  | _, _ => false
  end.


(** Number of cycles of a run on which the core reports an error. *)
Fixpoint error_pulses (tr : list inputs) : Z :=
  match tr with
  | [] => 0
  | i :: tr' => Z.b2z (Core.error (core i)) + error_pulses tr'
  end.

(** The engine's SETUP decoder registers: byte counter, direction
    and data-stage flag. *)
Definition decoder (s : state) : Z * bool * bool :=
  (setup_data_byte s, setup_is_in s, setup_data_stage s).

(** What one payload byte [b] does to the decoder registers
    ([Elif(setup_data_byte_ce, ...)] in the interface's sync block). *)
Definition decode_byte (d : Z * bool * bool) (b : Z) : Z * bool * bool :=
  let '(n, is_in, data) := d in
  (trunc 4 (n + 1),
   if n =? 0 then Z.testbit b 7 else is_in,
   if ((n =? 6) || (n =? 7)) && nonzero b then true else data).

(** The byte of an [IN_DATA] write that has landed in the register
    and enters the FIFO on this cycle ([buf.we.eq(self.data.re)]). *)
Definition in_data_pending (h : InHandler.t) : list Z :=
  if Csr.re (InHandler.data h)
  then [trunc 8 (Csr.storage (InHandler.data h))] else [].

(** The CPU fills the IN FIFO: one [IN_DATA] write per byte, then one
    more cycle for the last write to land. *)
Definition fill_in_fifo (vs : list Z) : list inputs :=
  map (cpu_write IN_DATA) vs ++ [bus_idle Core.quiet].

(** The payload bytes of an OUT data packet for endpoint [e]. *)
Definition out_payload (e : Z) (bs : list Z) : list inputs :=
  map (fun b => bus_idle (token_byte PID_OUT e b)) bs.

(** * Properties *)

(** ** Bit-level facts *)

Lemma testbit_trunc (w v n : Z) :
  0 <= w -> Z.testbit (trunc w v) n = Z.testbit v n && (n <? w).
Proof.
  intros Hw. unfold trunc. rewrite Z.land_spec.
  destruct (Z.ltb_spec n 0) as [Hn | Hn].
  - rewrite (Z.testbit_neg_r v n Hn). reflexivity.
  - rewrite Z.testbit_ones by assumption.
    replace (0 <=? n) with true by (symmetry; apply Z.leb_le; assumption).
    reflexivity.
Qed.

Lemma testbit_Cat (w lo hi n : Z) :
  0 <= w ->
  Z.testbit (Cat w lo hi) n = Z.testbit lo n || Z.testbit hi (n - w).
Proof.
  intros Hw. unfold Cat. rewrite Z.lor_spec.
  destruct (Z.ltb_spec n 0) as [Hn | Hn].
  - rewrite !(Z.testbit_neg_r _ n Hn), (Z.testbit_neg_r hi (n - w)) by lia.
    reflexivity.
  - rewrite Z.shiftl_spec by assumption. reflexivity.
Qed.

Lemma testbit_above (w v n : Z) :
  in_width w v -> w <= n -> Z.testbit v n = false.
Proof.
  intros [Hlo Hhi] Hn.
  destruct (Z.eq_dec v 0) as [-> | Hv].
  - apply Z.testbit_0_l.
  - apply Z.bits_above_log2; [assumption|].
    assert (Hw : 0 <= w).
    { destruct (Z.le_gt_cases 0 w) as [H | H]; [exact H|].
      rewrite Z.pow_neg_r in Hhi by assumption. lia. }
    assert (Z.log2 v < w) by (apply Z.log2_lt_pow2; lia).
    lia.
Qed.

Lemma trunc_in_width (w v : Z) : 0 <= w -> in_width w (trunc w v).
Proof.
  intros Hw. unfold trunc, in_width.
  rewrite Z.land_ones by assumption.
  apply Z.mod_pos_bound. apply Z.pow_pos_nonneg; lia.
Qed.

Lemma trunc_small (w v : Z) : 0 <= w -> in_width w v -> trunc w v = v.
Proof.
  intros Hw [Hlo Hhi]. unfold trunc.
  rewrite Z.land_ones by assumption. apply Z.mod_small; lia.
Qed.

(** The endpoint key: [Cat(endp, is_IN)] is [endp + 16 * is_IN]. *)
Lemma eps_idx_value (c : Core.t) :
  0 <= Core.endp c < 16 ->
  eps_idx c = Core.endp c + 16 * Z.b2z (PID_eqb (Core.tok c) PID_IN).
Proof.
  intros He. unfold eps_idx.
  assert (Hcases : exists n : nat, (n < 16)%nat /\ Core.endp c = Z.of_nat n).
  { exists (Z.to_nat (Core.endp c)). lia. }
  destruct Hcases as (n & Hn & ->).
  destruct (PID_eqb (Core.tok c) PID_IN);
    do 16 (destruct n as [|n]; [reflexivity|]); lia.
Qed.

Lemma eps_idx_range (c : Core.t) :
  0 <= Core.endp c < 16 -> 0 <= eps_idx c < 32.
Proof.
  intros He. rewrite eps_idx_value by assumption.
  destruct (PID_eqb (Core.tok c) PID_IN); simpl Z.b2z; lia.
Qed.

(** The stall bit is the complement of one bit of the bitmap. *)
Lemma should_stall_testbit (s : state) (c : Core.t) :
  0 <= Core.endp c < 16 ->
  should_stall s c = negb (Z.testbit (enable s) (eps_idx c)).
Proof.
  intros He. unfold should_stall.
  pose proof (eps_idx_range c He) as Hr.
  rewrite Z.lnot_spec, Z.shiftr_spec by lia.
  reflexivity.
Qed.

(** Bit [n] of the 32-bit bitmap, register by register. *)
Lemma enable_testbit (s : state) (n : Z) :
  wf s -> 0 <= n < 32 ->
  Z.testbit (enable s) n =
    if n <? 8 then Z.testbit (Csr.storage (enable_out0 s)) n
    else if n <? 16 then Z.testbit (Csr.storage (enable_out1 s)) (n - 8)
    else if n <? 24 then Z.testbit (Csr.storage (enable_in0 s)) (n - 16)
    else Z.testbit (Csr.storage (enable_in1 s)) (n - 24).
Proof.
  intros Hwf Hn. unfold enable.
  rewrite testbit_trunc by lia.
  replace (n <? 32) with true by (symmetry; apply Z.ltb_lt; lia).
  rewrite andb_true_r.
  rewrite !testbit_Cat by lia.
  destruct Hwf as [H0 H1 H2 H3 _ _ _ _].
  destruct (Z.ltb_spec n 8); [|destruct (Z.ltb_spec n 16);
    [|destruct (Z.ltb_spec n 24)]].
  - rewrite (Z.testbit_neg_r _ (n - 8)), (Z.testbit_neg_r _ (n - 8 - 8)),
      (Z.testbit_neg_r _ (n - 8 - 8 - 8)) by lia.
    rewrite !orb_false_r. reflexivity.
  - rewrite (testbit_above 8 _ n H0), (Z.testbit_neg_r _ (n - 8 - 8)),
      (Z.testbit_neg_r _ (n - 8 - 8 - 8)) by lia.
    rewrite !orb_false_r. reflexivity.
  - rewrite (testbit_above 8 _ n H0), (testbit_above 8 _ (n - 8) H1),
      (Z.testbit_neg_r _ (n - 8 - 8 - 8)) by lia.
    rewrite orb_false_r. simpl. f_equal. lia.
  - rewrite (testbit_above 8 _ n H0), (testbit_above 8 _ (n - 8) H1),
      (testbit_above 8 _ (n - 8 - 8) H2) by lia.
    simpl. f_equal. lia.
Qed.

(** ** Width invariant *)

Lemma Csr_step_width (w : Z) (x : option Z) (c : Csr.t) :
  0 <= w -> in_width w (Csr.storage c) ->
  in_width w (Csr.storage (Csr.step w x c)).
Proof.
  intros Hw Hc. destruct x as [v|]; simpl.
  - apply trunc_in_width; assumption.
  - assumption.
Qed.

Lemma wf_reset : wf reset_state.
Proof. constructor; simpl; unfold in_width; lia. Qed.

Lemma wf_step (debug : bool) (s : state) (i : inputs) :
  wf s -> wf (step debug s i).
Proof.
  intros [H0 H1 H2 H3 H4 H5 H6 H7].
  constructor; unfold step; cbn [enable_out0 enable_out1 enable_in0
    enable_in1 in_handler out_handler invalid_states InHandler_step
    OutHandler_step InHandler.ctrl OutHandler.ctrl InHandler.dtbs].
  - apply Csr_step_width; [lia | assumption].
  - apply Csr_step_width; [lia | assumption].
  - apply Csr_step_width; [lia | assumption].
  - apply Csr_step_width; [lia | assumption].
  - apply Csr_step_width; [lia | assumption].
  - apply Csr_step_width; [lia | assumption].
  - repeat match goal with
           | |- context [if ?b then _ else _] => destruct b
           end; try assumption; apply trunc_in_width; lia.
  - destruct (invalid_state_ce _); [apply trunc_in_width; lia | assumption].
Qed.

Lemma wf_run (debug : bool) (tr : list inputs) (s : state) :
  wf s -> wf (run debug s tr).
Proof.
  revert s. induction tr as [|i tr IH]; intros s Hs; simpl.
  - assumption.
  - apply IH, wf_step, Hs.
Qed.

Lemma reachable_wf (debug : bool) (s : state) : reachable debug s -> wf s.
Proof. intros [tr ->]. apply wf_run, wf_reset. Qed.

Lemma reachable_step (debug : bool) (s : state) (i : inputs) :
  reachable debug s -> reachable debug (step debug s i).
Proof.
  intros [tr ->]. exists (tr ++ [i]).
  generalize reset_state. induction tr as [|j tr IH]; intros s0; simpl.
  - reflexivity.
  - apply IH.
Qed.

(** ** Stall policy (C1) *)

(** C1, as stated, fails: with only OUT endpoint 1 enabled
    ([ENABLE_OUT0 = 2]) an OUT token to endpoint 1 is not stalled,
    although bit [2*1 + 0] of the bitmap is clear. *)
Lemma C1_index_2E_plus_D_refuted :
  let s := step false reset_state (cpu_write ENABLE_OUT0 2) in
  let c := token PID_OUT 1 in
  reachable false s /\ 0 <= Core.endp c < 16 /\
  should_stall s c <> negb (Z.testbit (enable s) (spec_index c)).
Proof.
  split; [|split].
  - exists [cpu_write ENABLE_OUT0 2]. reflexivity.
  - simpl. lia.
  - vm_compute. discriminate.
Qed.

(** C1 (amended): for a token to endpoint [E] in direction [D] the
    stall decision is the complement of bit [E + 16*D] of the 32-bit
    bitmap [Cat(enable_out0, enable_out1, enable_in0, enable_in1)];
    it is recomputed from the registers on every cycle, so on the
    cycle after a CPU write of [v] to the register that holds that bit
    the decision already follows [v]. *)
Theorem C1_should_stall_enable_bit (debug : bool) (s : state) (i : inputs)
    (c : Core.t) :
  wf s -> 0 <= Core.endp c < 16 ->
  should_stall s c = negb (Z.testbit (enable s) (code_index c)) /\
  (forall r v off,
      cpu i = Some (r, v) -> enable_offset r = Some off ->
      off <= code_index c < off + 8 ->
      should_stall (step debug s i) c
      = negb (Z.testbit v (code_index c - off))).
Proof.
  intros Hwf He. unfold code_index.
  rewrite <- (eps_idx_value c He).
  split.
  - apply should_stall_testbit; assumption.
  - intros r v off Hcpu Hoff Hk.
    pose proof (eps_idx_range c He) as Hr.
    rewrite should_stall_testbit by assumption.
    rewrite enable_testbit by (try apply wf_step; assumption).
    f_equal.
    destruct r; simpl in Hoff; inversion Hoff; subst off; clear Hoff;
      repeat match goal with
             | |- context [?a <? ?b] => destruct (Z.ltb_spec a b); try lia
             end;
      unfold step; cbn [enable_out0 enable_out1 enable_in0 enable_in1];
      unfold wr; rewrite Hcpu; cbn [reg_eqb Csr.step Csr.storage];
      rewrite testbit_trunc by lia;
      match goal with
      | |- context [?a <? ?b] =>
          replace (a <? b) with true by (symmetry; apply Z.ltb_lt; lia)
      end;
      rewrite andb_true_r; f_equal; lia.
Qed.

Lemma C1_should_stall_enable_bit_witness :
  let s := reset_state in
  let i := cpu_write ENABLE_IN0 8 in
  let c := token PID_IN 3 in
  should_stall s c = negb (Z.testbit (enable s) (code_index c)) /\
  should_stall (step false s i) c = negb (Z.testbit 8 (code_index c - 16)).
Proof.
  destruct (C1_should_stall_enable_bit false reset_state
              (cpu_write ENABLE_IN0 8) (token PID_IN 3) wf_reset)
    as [H1 H2].
  - simpl. lia.
  - split.
    + exact H1.
    + apply (H2 ENABLE_IN0 8 16); [reflexivity | reflexivity |].
      unfold code_index. simpl. lia.
Defined.

(** ** Evaluating the stage machine *)

(** Split on every guard of the statements in the goal. *)
Ltac split_guards :=
  repeat match goal with
         | |- context [If_ ?b _ _] =>
             lazymatch b with
             | true => fail
             | false => fail
             | _ => destruct b eqn:?
             end
         end.

(** Open the body of the active stage, known from [H]. *)
Ltac open_stage H :=
  unfold comb, act; rewrite H; split_guards; cbn [block fold_left If_].

(** Prove a fact about the machine's wires stage by stage. *)
Ltac by_stages s debug :=
  let Hst := fresh "Hst" in
  destruct (stage s) eqn:Hst; unfold comb, act; rewrite Hst;
  try (destruct debug); split_guards; reflexivity.

(** ** SETUP tokens are acknowledged (C2) *)

(** C2, as stated, fails: after power-on the enable bitmap is zero;
    when the SETUP transaction that carries GET_DESCRIPTOR completes
    ([usb_core.setup] high) the engine is still in the SETUP stage,
    the token is still SETUP, and the stall line is driven high. *)
Lemma C2_setup_stall_asserted :
  let s := run false reset_state (setup_token_trace get_descriptor) in
  let i := bus_idle (token_commit PID_SETUP 0) in
  stage s = SETUP /\ Core.tok (core i) = PID_SETUP /\
  sta (comb false s i) = true.
Proof. vm_compute. repeat split. Qed.

(** C2 (amended): when token classification sees a SETUP token on a
    busy core it drives [sta = 0], [arm = 1] and enters the SETUP
    stage; in the SETUP stage [sta = 0] and [arm = 1] hold on every
    cycle other than the one on which the core's [setup] strobe
    arrives with a data stage detected.  Neither depends on the
    enable bitmap or on any FIFO. *)
Theorem C2_setup_acked (debug : bool) (s : state) (i : inputs) :
  (stage s = CHECK_TOK -> Core.idle (core i) = false ->
   Core.tok (core i) = PID_SETUP ->
   sta (comb debug s i) = false /\ arm (comb debug s i) = true /\
   next_state (comb debug s i) = SETUP) /\
  (stage s = SETUP ->
   Core.setup (core i) && setup_data_stage s = false ->
   sta (comb debug s i) = false /\ arm (comb debug s i) = true).
Proof.
  split.
  - intros Hst Hidle Htok.
    unfold comb, act. rewrite Hst, Hidle, Htok.
    repeat split.
  - intros Hst Hgate.
    open_stage Hst; try discriminate Hgate; repeat split.
Qed.

Lemma C2_setup_acked_witness :
  let s := run false reset_state [bus_idle (token_start PID_SETUP 0)] in
  let i := bus_idle (token PID_SETUP 0) in
  (sta (comb false s i) = false /\ arm (comb false s i) = true /\
   next_state (comb false s i) = SETUP) /\
  (sta (comb false (step false s i) i) = false /\
   arm (comb false (step false s i) i) = true).
Proof.
  split.
  - apply (C2_setup_acked false
             (run false reset_state [bus_idle (token_start PID_SETUP 0)])
             (bus_idle (token PID_SETUP 0))); reflexivity.
  - apply (C2_setup_acked false
             (step false
                (run false reset_state [bus_idle (token_start PID_SETUP 0)])
                (bus_idle (token PID_SETUP 0)))
             (bus_idle (token PID_SETUP 0))); reflexivity.
Defined.

(** ** Response of the Out Handler (C3) *)

(** The enable bit of [OUT_CTRL] as the handler sees it. *)
Lemma out_ctrl_write (debug : bool) (s : state) (i : inputs) (v : Z) :
  cpu i = Some (OUT_CTRL, v) ->
  OutHandler.ctrl (out_handler (step debug s i)) = Csr.mk (trunc 2 v) true.
Proof.
  intros Hcpu. unfold step. cbn [out_handler OutHandler_step OutHandler.ctrl].
  unfold wr. rewrite Hcpu. reflexivity.
Qed.

Lemma out_ctrl_hold (debug : bool) (s : state) (i : inputs) :
  wr OUT_CTRL i = None ->
  OutHandler.ctrl (out_handler (step debug s i))
  = Csr.mk (Csr.storage (OutHandler.ctrl (out_handler s))) false.
Proof.
  intros Hwr. unfold step. cbn [out_handler OutHandler_step OutHandler.ctrl].
  rewrite Hwr. reflexivity.
Qed.

(** Without a write the enable bit keeps its value over any run. *)
Lemma out_enable_stable (debug : bool) (tr : list inputs) (s : state) :
  Forall (fun i => wr OUT_CTRL i = None) tr ->
  Csr.storage (OutHandler.ctrl (out_handler (run debug s tr)))
  = Csr.storage (OutHandler.ctrl (out_handler s)).
Proof.
  revert s. induction tr as [|i tr IH]; intros s Hall; simpl.
  - reflexivity.
  - inversion Hall as [|? ? Hi Htl]; subst.
    rewrite IH by assumption.
    rewrite (out_ctrl_hold debug s i Hi). reflexivity.
Qed.

(** C3, as stated, fails: after the CPU writes [OUT_CTRL.ENABLE] the
    handler answers OUT tokens with ACK although its FIFO is empty. *)
Lemma C3_response_with_empty_fifo :
  let s := run false reset_state [cpu_write OUT_CTRL 2; bus_idle Core.quiet] in
  let h := out_handler s in
  reachable false s /\
  Fifo.readable (OutHandler.buf h) = false /\
  OutHandler.response h
  <> Fifo.readable (OutHandler.buf h)
     && Z.testbit (Csr.storage (OutHandler.ctrl h)) 1.
Proof.
  split; [|split].
  - exists [cpu_write OUT_CTRL 2; bus_idle Core.quiet]. reflexivity.
  - reflexivity.
  - vm_compute. discriminate.
Qed.

(** C3 (amended): the Out Handler's response is [have_data AND
    ctrl.storage[1]], where [have_data] is the copy of the enable bit
    that the handler latches when an [OUT_CTRL] write lands; the FIFO
    occupancy plays no part.  After an [OUT_CTRL] write whose enable
    bit is clear (an advance-only write that drains a byte) every
    later OUT token is NAKed until the next [OUT_CTRL] write, and two
    cycles after a write with the enable bit set the response is ACK,
    whatever the FIFO holds. *)
Theorem C3_out_response (debug : bool) (s : state) (i j : inputs) (v : Z)
    (tr : list inputs) :
  cpu i = Some (OUT_CTRL, v) ->
  wr OUT_CTRL j = None ->
  Forall (fun k => wr OUT_CTRL k = None) tr ->
  OutHandler.response (out_handler s)
  = OutHandler.have_data (out_handler s)
    && Z.testbit (Csr.storage (OutHandler.ctrl (out_handler s))) 1 /\
  OutHandler.have_data (out_handler (step debug (step debug s i) j))
  = Z.testbit v 1 /\
  (Z.testbit v 1 = false ->
   OutHandler.response (out_handler (run debug (step debug s i) tr))
   = false) /\
  (Z.testbit v 1 = true ->
   OutHandler.response (out_handler (step debug (step debug s i) j))
   = true).
Proof.
  intros Hcpu Hj Htr.
  assert (Hbit : Z.testbit (trunc 2 v) 1 = Z.testbit v 1).
  { rewrite testbit_trunc by lia. apply andb_true_r. }
  assert (Hlatch :
    OutHandler.have_data (out_handler (step debug (step debug s i) j))
    = Z.testbit v 1).
  { unfold step at 1.
    cbn [out_handler OutHandler_step OutHandler.have_data].
    rewrite (out_ctrl_write debug s i v Hcpu).
    cbn [Csr.storage Csr.re]. exact Hbit. }
  split; [reflexivity | split; [exact Hlatch | split]].
  - intros Hv. unfold OutHandler.response.
    rewrite (out_enable_stable debug tr _ Htr).
    rewrite (out_ctrl_write debug s i v Hcpu). cbn [Csr.storage Csr.re].
    rewrite Hbit, Hv. apply andb_false_r.
  - intros Hv. unfold OutHandler.response.
    rewrite Hlatch, Hv.
    rewrite (out_ctrl_hold debug _ j Hj).
    rewrite (out_ctrl_write debug s i v Hcpu). cbn [Csr.storage Csr.re].
    rewrite Hbit. exact Hv.
Qed.

Lemma C3_out_response_witness :
  let i := cpu_write OUT_CTRL 1 in
  let j := bus_idle (token PID_OUT 2) in
  let s := run false reset_state [cpu_write OUT_CTRL 2; bus_idle Core.quiet] in
  OutHandler.response (out_handler s) = true /\
  OutHandler.response (out_handler (run false (step false s i) [j; j; j]))
  = false.
Proof.
  destruct (C3_out_response false
              (run false reset_state
                 [cpu_write OUT_CTRL 2; bus_idle Core.quiet])
              (cpu_write OUT_CTRL 1) (bus_idle (token PID_OUT 2)) 1
              [bus_idle (token PID_OUT 2); bus_idle (token PID_OUT 2);
               bus_idle (token PID_OUT 2)])
    as (_ & _ & Hnak & _).
  - reflexivity.
  - reflexivity.
  - repeat constructor.
  - split.
    + reflexivity.
    + apply Hnak. reflexivity.
Defined.

(** ** Data toggles of the In Handler (C4) *)

(** C4: the toggle vector starts as all ones, as the claim says, but
    the commit of an OUT transaction flips the IN toggle of the
    endpoint selected in [IN_CTRL]: after [out_transaction_trace],
    which contains no IN token and no toggle reset, endpoint 0 would
    send DATA0 instead of DATA1. *)
Theorem C4_out_commit_flips_in_toggle :
  let s := run false reset_state out_transaction_trace in
  InHandler.dtbs (in_handler reset_state) = 65535 /\
  InHandler.dtb (in_handler reset_state) (token PID_IN 0) = true /\
  Forall (fun i => Core.tok (core i) <> PID_IN) out_transaction_trace /\
  InHandler.dtbs (in_handler s) = 65534 /\
  InHandler.dtb (in_handler s) (token PID_IN 0) = false.
Proof.
  repeat split; try reflexivity.
  repeat constructor; discriminate.
Qed.

(** ** Unclassified tokens and the invalid-state counter (C5) *)

(** C5, as stated, fails: token classification sees an SOF token on a
    busy core, returns to IDLE, and the counter keeps its value. *)
Lemma C5_check_tok_does_not_count :
  let s := run false reset_state [bus_idle (token_start PID_SOF 0)] in
  let i := bus_idle (token PID_SOF 0) in
  stage s = CHECK_TOK /\ Core.idle (core i) = false /\
  stage (step false s i) = IDLE /\
  invalid_states (step false s i) <> trunc 8 (invalid_states s + 1).
Proof. vm_compute. repeat split; discriminate. Qed.

(** The stage machine's next stage reaches the stage register unless
    the bus is being reset, which also leads to IDLE. *)
Lemma stage_step (debug : bool) (s : state) (i : inputs) :
  stage (step debug s i)
  = if Core.usb_reset (core i) then IDLE else next_state (comb debug s i).
Proof. reflexivity. Qed.

Lemma invalid_states_step (debug : bool) (s : state) (i : inputs) :
  invalid_states (step debug s i)
  = if invalid_state_ce (comb debug s i)
    then trunc 8 (invalid_states s + 1) else invalid_states s.
Proof. reflexivity. Qed.

(** [invalid_state_ce] is raised in the SETUP stage only, when the
    transaction ends without the [setup] strobe. *)
Lemma invalid_state_ce_spec (debug : bool) (s : state) (i : inputs) :
  invalid_state_ce (comb debug s i)
  = Stage_eqb (stage s) SETUP
    && negb (Core.setup (core i)) && Core.end_ (core i).
Proof.
  by_stages s debug.
Qed.

(** C5 (amended): in token classification a token that is neither
    SETUP, IN nor OUT sends the engine back to IDLE with arm and stall
    low and leaves the invalid-state counter untouched.  The counter
    is incremented (modulo 256) exactly on the cycles where the SETUP
    stage sees the transaction end without the core's [setup] strobe,
    and the engine then returns to IDLE. *)
Theorem C5_invalid_state_counting (debug : bool) (s : state) (i : inputs) :
  (stage s = CHECK_TOK -> Core.idle (core i) = false ->
   Core.tok (core i) = PID_SOF ->
   stage (step debug s i) = IDLE /\
   arm (comb debug s i) = false /\ sta (comb debug s i) = false /\
   invalid_states (step debug s i) = invalid_states s) /\
  (stage s = SETUP -> Core.setup (core i) = false ->
   Core.end_ (core i) = true ->
   stage (step debug s i) = IDLE /\
   invalid_states (step debug s i) = trunc 8 (invalid_states s + 1)) /\
  (~ (stage s = SETUP /\ Core.setup (core i) = false
      /\ Core.end_ (core i) = true) ->
   invalid_states (step debug s i) = invalid_states s).
Proof.
  split; [|split].
  - intros Hst Hidle Htok.
    rewrite stage_step, invalid_states_step, invalid_state_ce_spec.
    rewrite Hst. cbn [Stage_eqb andb].
    unfold comb, act. rewrite Hst, Hidle, Htok.
    cbn. destruct (Core.usb_reset (core i)); repeat split.
  - intros Hst Hsetup Hend.
    rewrite stage_step, invalid_states_step, invalid_state_ce_spec.
    rewrite Hst, Hsetup, Hend. cbn [Stage_eqb andb negb].
    split; [|reflexivity].
    open_stage Hst; try discriminate;
      destruct (Core.usb_reset (core i)); reflexivity.
  - intros Hnot.
    rewrite invalid_states_step, invalid_state_ce_spec.
    destruct (stage s); cbn [Stage_eqb andb]; try reflexivity.
    destruct (Core.setup (core i)); cbn [negb andb]; try reflexivity.
    destruct (Core.end_ (core i)); try reflexivity.
    exfalso. apply Hnot. repeat split.
Qed.

Lemma C5_invalid_state_counting_witness :
  let s := run false reset_state (setup_token_trace set_address) in
  let i := bus_idle (token_end PID_SETUP 0) in
  stage (step false s i) = IDLE /\
  invalid_states (step false s i) = trunc 8 (invalid_states s + 1).
Proof.
  apply (C5_invalid_state_counting false
           (run false reset_state (setup_token_trace set_address))
           (bus_idle (token_end PID_SETUP 0))); reflexivity.
Defined.

(** ** Waiting for the status stage (C6) *)

(** C6, as stated, fails: right after a SETUP without data stage the
    engine waits in WAIT_CONTROL_ACK_IN with the SETUP record still
    unread, and the arm line is low, not high. *)
Lemma C6_arm_low_while_fifo_full :
  let s := run false reset_state (setup_transaction in_request_no_data) in
  let i := bus_idle (token PID_OUT 0) in
  stage s = WAIT_CONTROL_ACK_IN /\
  SetupHandler.empty (setup_handler s) = false /\
  arm (comb false s i) = false.
Proof. vm_compute. repeat split. Qed.

(** C6 (amended): in WAIT_CONTROL_ACK_IN and WAIT_CONTROL_ACK_OUT the
    arm line equals the Setup Handler's [empty] flag, so it is held
    low while the SETUP FIFO still has unread bytes and is high once
    the FIFO is empty; stall is low and the toggle is DATA1.  The
    engine leaves for IDLE when the transaction ends
    ([usb_core.end] in the IN variant, [usb_core.data_end] in the OUT
    variant) with the FIFO empty, and stays otherwise. *)
Theorem C6_wait_control_ack (debug : bool) (s : state) (i : inputs) :
  stage s = WAIT_CONTROL_ACK_IN \/ stage s = WAIT_CONTROL_ACK_OUT ->
  let w := comb debug s i in
  let finished :=
    match stage s with
    | WAIT_CONTROL_ACK_IN => Core.end_ (core i)
    | _ => Core.data_end (core i)
    end in
  arm w = SetupHandler.empty (setup_handler s) /\
  sta w = false /\ dtb w = true /\
  next_state w
  = if finished && SetupHandler.empty (setup_handler s)
    then IDLE else stage s.
Proof.
  intros [Hst | Hst]; rewrite Hst; cbv zeta; open_stage Hst;
    repeat split.
Qed.

Lemma C6_wait_control_ack_witness :
  let s := run false reset_state (setup_transaction set_address) in
  let i := bus_idle (token PID_IN 0) in
  stage s = WAIT_CONTROL_ACK_OUT /\
  arm (comb false s i) = SetupHandler.empty (setup_handler s) /\
  next_state (comb false s i) = WAIT_CONTROL_ACK_OUT.
Proof.
  split; [reflexivity|].
  destruct (C6_wait_control_ack false
              (run false reset_state (setup_transaction set_address))
              (bus_idle (token PID_IN 0)))
    as (Harm & _ & _ & Hnext).
  - right. reflexivity.
  - split; [exact Harm | exact Hnext].
Defined.

(** ** The Setup Handler's event (C7) *)

(** The trigger, stage by stage. *)
Lemma setup_trigger_spec (debug : bool) (s : state) (i : inputs) :
  setup_trigger debug s i
  = if Stage_eqb (stage s) SETUP then Core.commit (core i)
    else Fifo.readable (SetupHandler.buf (setup_handler s))
         && Core.end_ (core i).
Proof.
  unfold setup_trigger, resolve.
  by_stages s debug.
Qed.

(** C7, as stated, fails: the run contains one SETUP token, committed
    once, and the Setup Handler's event is raised twice: at the
    commit, and again when the status-stage transaction ends while
    the record is still in the FIFO. *)
Lemma C7_event_raised_twice :
  commit_pulses unread_setup_trace = 1%nat /\
  setup_events false reset_state unread_setup_trace = 2%nat.
Proof. vm_compute. split; reflexivity. Qed.

(** C7 (amended): while the engine is in the SETUP stage the Setup
    Handler's trigger is the core's commit strobe, so the event is
    raised once per commit pulse there; in every other stage the
    trigger is [buf.readable AND usb_core.end], so it is raised again
    at each transaction end for as long as the SETUP FIFO holds unread
    bytes. *)
Theorem C7_setup_trigger (debug : bool) (s : state) (i : inputs)
    (tr : list inputs) :
  (stage s = SETUP -> setup_trigger debug s i = Core.commit (core i)) /\
  (stage s <> SETUP ->
   setup_trigger debug s i
   = Fifo.readable (SetupHandler.buf (setup_handler s))
     && Core.end_ (core i)) /\
  (stays_in SETUP debug s tr = true ->
   setup_events debug s tr = commit_pulses tr).
Proof.
  split; [|split].
  - intros Hst. rewrite setup_trigger_spec, Hst. reflexivity.
  - intros Hst. rewrite setup_trigger_spec.
    destruct (stage s); try reflexivity. contradiction Hst. reflexivity.
  - revert s. induction tr as [|j tr IH]; intros s Hstay; simpl.
    + reflexivity.
    + simpl in Hstay. apply andb_prop in Hstay. destruct Hstay as [Hs Htl].
      rewrite setup_trigger_spec, Hs, (IH _ Htl). reflexivity.
Qed.

Lemma C7_setup_trigger_witness :
  let s := run false reset_state (setup_token_trace set_address) in
  let i := bus_idle (token_commit PID_SETUP 0) in
  setup_trigger false s i = true /\
  setup_events false s [i] = 1%nat.
Proof.
  destruct (C7_setup_trigger false
              (run false reset_state (setup_token_trace set_address))
              (bus_idle (token_commit PID_SETUP 0))
              [bus_idle (token_commit PID_SETUP 0)])
    as (Hin & _ & Hrun).
  split.
  - apply Hin. reflexivity.
  - apply Hrun. reflexivity.
Defined.

(** ** A new SETUP token starts from an empty FIFO (C8) *)

(** [buf.reset] is raised two cycles after the start of a SETUP
    token, whatever else happens. *)
Lemma setup_buf_reset_raised (debug : bool) (s : state) (i0 i1 : inputs) :
  Core.start (core i0) = true ->
  Core.tok (core i1) = PID_SETUP ->
  SetupHandler.buf_reset
    (setup_handler (step debug (step debug s i0) i1)) = true.
Proof.
  intros Hstart Htok. unfold step.
  cbn [setup_handler SetupHandler_step SetupHandler.buf_reset
       SetupHandler.check_reset].
  rewrite Hstart, Htok. reflexivity.
Qed.

(** C8: when a SETUP token starts (the core raises [start] and reports
    [tok = SETUP] on the following cycle) the SETUP FIFO is reset:
    three cycles after the start it is empty, whatever it held before
    and whatever the CPU or the core did in between.  The bytes of the
    new record are stored after that: from IDLE, a SETUP token with an
    eight-byte payload leaves exactly those eight bytes in the FIFO,
    independently of the unread bytes of an earlier record. *)
Theorem C8_new_setup_discards_old_record (debug : bool) (s : state)
    (i0 i1 i2 : inputs) (b0 b1 b2 b3 b4 b5 b6 b7 : Z) :
  (Core.start (core i0) = true -> Core.tok (core i1) = PID_SETUP ->
   SetupHandler.buf
     (setup_handler (step debug (step debug (step debug s i0) i1) i2))
   = Fifo.empty) /\
  (stage s = IDLE ->
   SetupHandler.buf
     (setup_handler
        (run debug s (setup_token_trace [b0; b1; b2; b3; b4; b5; b6; b7])))
   = map (trunc 8) [b0; b1; b2; b3; b4; b5; b6; b7]).
Proof.
  split.
  - intros Hstart Htok.
    unfold step at 1.
    cbn [setup_handler SetupHandler_step SetupHandler.buf].
    rewrite (setup_buf_reset_raised debug s i0 i1 Hstart Htok).
    reflexivity.
  - intros Hst.
    destruct s as [st ? ? ? ? ? ? ? ? ? ? ? ? sh ih oh].
    simpl in Hst. subst st.
    destruct debug; vm_compute; reflexivity.
Qed.

Lemma C8_new_setup_discards_old_record_witness :
  let s := run false reset_state
             (setup_token_trace get_descriptor
              ++ [bus_idle (token_end PID_SETUP 0)]) in
  SetupHandler.buf (setup_handler s) = get_descriptor /\
  SetupHandler.buf
    (setup_handler (run false s (firstn 3 (setup_token_trace set_address))))
  = Fifo.empty /\
  SetupHandler.buf
    (setup_handler (run false s (setup_token_trace set_address)))
  = set_address.
Proof.
  destruct (C8_new_setup_discards_old_record false
              (run false reset_state
                 (setup_token_trace get_descriptor
                  ++ [bus_idle (token_end PID_SETUP 0)]))
              (bus_idle (token_start PID_SETUP 0))
              (bus_idle (token PID_SETUP 0))
              (bus_idle (token PID_SETUP 0))
              0 5 1 0 0 0 0 0)
    as [Hreset Hfresh].
  split; [reflexivity | split].
  - apply Hreset; reflexivity.
  - apply Hfresh. reflexivity.
Defined.

(** ** Toggle reset in the SETUP stage (C10) and the IN reset bit (C9) *)

(** [in_handler.dtb_reset] is driven in the SETUP stage and nowhere
    else. *)
Lemma dtb_reset_spec (debug : bool) (s : state) (i : inputs) :
  dtb_reset (comb debug s i) = Stage_eqb (stage s) SETUP.
Proof. by_stages s debug. Qed.

(** Only the core's [data_send_get] can advance the IN FIFO. *)
Lemma data_out_advance_spec (debug : bool) (s : state) (i : inputs) :
  Core.data_send_get (core i) = false ->
  data_out_advance (comb debug s i) = false.
Proof.
  intros Hget.
  destruct (stage s) eqn:Hst; unfold comb, act; rewrite Hst, ?Hget;
    try (destruct debug); split_guards; reflexivity.
Qed.

Lemma epno_range (h : InHandler.t) : 0 <= InHandler.epno h < 16.
Proof. apply (trunc_in_width 4). lia. Qed.

Lemma testbit_one_hot (e n : Z) :
  0 <= e -> Z.testbit (Z.shiftl 1 e) n = (e =? n).
Proof.
  intros He. rewrite Z.shiftl_1_l. apply Z.pow2_bits_eqb. assumption.
Qed.

(** The queued flag stays low as long as [IN_CTRL] is not written. *)
Lemma queued_stays_low (debug : bool) (tr : list inputs) (s : state) :
  InHandler.queued (in_handler s) = false ->
  Csr.re (InHandler.ctrl (in_handler s)) = false ->
  Forall (fun k => wr IN_CTRL k = None) tr ->
  InHandler.queued (in_handler (run debug s tr)) = false.
Proof.
  revert s. induction tr as [|i tr IH]; intros s Hq Hre Hall; simpl.
  - assumption.
  - inversion Hall as [|? ? Hi Htl]; subst.
    apply IH; [| |assumption]; unfold step;
      cbn [in_handler InHandler_step InHandler.queued InHandler.ctrl].
    + rewrite Hq, Hre.
      repeat match goal with
             | |- context [if ?b then _ else _] => destruct b
             end; reflexivity.
    + rewrite Hi. reflexivity.
Qed.

(** C9, as stated, fails: the write of the reset bit lands on a cycle
    of the SETUP stage, where the toggle reset has priority in the
    handler's update chain, and the queued flag stays set; the next IN
    token to endpoint 0 is answered with ACK. *)
Lemma C9_reset_write_lost_in_setup_stage :
  let s := run false reset_state reset_during_setup_trace in
  let i := bus_idle (token PID_SETUP 0) in
  let h := in_handler s in
  let h' := in_handler (step false s i) in
  Csr.re (InHandler.ctrl h) = true /\ InHandler.reset_fifo h = true /\
  InHandler.queued h' = true /\
  InHandler.response h' (token PID_IN 0) = true.
Proof. vm_compute. repeat split. Qed.

(** C9 (amended): when a write of [IN_CTRL] with the reset bit set
    lands on a cycle on which the engine is not in the SETUP stage,
    the queued flag is cleared and the In Handler answers every IN
    token with NAK until [IN_CTRL] is written again.  The write never
    touches the IN FIFO: the FIFO has no reset, and on a cycle without
    a data write or a read by the core its contents are unchanged. *)
Theorem C9_in_ctrl_reset (debug : bool) (s : state) (i : inputs)
    (tr : list inputs) :
  Csr.re (InHandler.ctrl (in_handler s)) = true ->
  InHandler.reset_fifo (in_handler s) = true ->
  stage s <> SETUP ->
  wr IN_CTRL i = None ->
  Forall (fun k => wr IN_CTRL k = None) tr ->
  InHandler.queued (in_handler (step debug s i)) = false /\
  (forall c,
      InHandler.response (in_handler (run debug (step debug s i) tr)) c
      = false) /\
  (Csr.re (InHandler.data (in_handler s)) = false ->
   Core.data_send_get (core i) = false ->
   InHandler.buf (in_handler (step debug s i))
   = InHandler.buf (in_handler s)).
Proof.
  intros Hre Hrst Hst Hi Htr.
  assert (Hdr : dtb_reset (comb debug s i) = false).
  { rewrite dtb_reset_spec. destruct (stage s); try reflexivity.
    contradiction Hst. reflexivity. }
  assert (Hq : InHandler.queued (in_handler (step debug s i)) = false).
  { unfold step. cbn [in_handler InHandler_step InHandler.queued].
    rewrite Hdr, Hre, Hrst. reflexivity. }
  split; [exact Hq | split].
  - intros c. unfold InHandler.response.
    rewrite (queued_stays_low debug tr _ Hq); [|  | exact Htr].
    + destruct (_ =? _); reflexivity.
    + unfold step. cbn [in_handler InHandler_step InHandler.ctrl].
      rewrite Hi. reflexivity.
  - intros Hdata Hget. unfold step.
    cbn [in_handler InHandler_step InHandler.buf].
    rewrite Hdata, (data_out_advance_spec debug s i Hget).
    reflexivity.
Qed.

Lemma C9_in_ctrl_reset_witness :
  let s := run false reset_state
             [cpu_write IN_DATA 7; cpu_write IN_CTRL 0; cpu_write IN_CTRL 16] in
  let i := bus_idle Core.quiet in
  let tr := [bus_idle (token_start PID_IN 0); bus_idle (token PID_IN 0)] in
  InHandler.buf (in_handler s) = [7] /\
  InHandler.queued (in_handler s) = true /\
  InHandler.queued (in_handler (step false s i)) = false /\
  InHandler.response (in_handler (run false (step false s i) tr))
    (token PID_IN 0) = false /\
  InHandler.buf (in_handler (step false s i)) = [7].
Proof.
  destruct (C9_in_ctrl_reset false
              (run false reset_state
                 [cpu_write IN_DATA 7; cpu_write IN_CTRL 0;
                  cpu_write IN_CTRL 16])
              (bus_idle Core.quiet)
              [bus_idle (token_start PID_IN 0); bus_idle (token PID_IN 0)])
    as (Hq & Hnak & Hbuf).
  - reflexivity.
  - reflexivity.
  - discriminate.
  - reflexivity.
  - repeat constructor.
  - split; [reflexivity | split; [reflexivity | split; [exact Hq | split]]].
    + apply Hnak.
    + apply Hbuf; reflexivity.
Defined.

(** C10: on every cycle of the SETUP stage, whichever endpoint the
    token addresses, the engine asserts the In Handler's [dtb_reset];
    the handler then sets to 1 the toggle bit of the endpoint selected
    in the low four bits of [IN_CTRL] and leaves every other toggle
    bit alone, that of the token's own endpoint included. *)
Theorem C10_setup_resets_selected_toggle (debug : bool) (s : state)
    (i : inputs) :
  wf s -> stage s = SETUP ->
  let h := in_handler s in
  let h' := in_handler (step debug s i) in
  dtb_reset (comb debug s i) = true /\
  Z.testbit (InHandler.dtbs h') (InHandler.epno h) = true /\
  (forall n, n <> InHandler.epno h ->
             Z.testbit (InHandler.dtbs h') n = Z.testbit (InHandler.dtbs h) n) /\
  (0 <= Core.endp (core i) -> Core.endp (core i) <> InHandler.epno h ->
   InHandler.dtb h' (core i) = InHandler.dtb h (core i)).
Proof.
  intros Hwf Hst h h'.
  assert (Hdr : dtb_reset (comb debug s i) = true).
  { rewrite dtb_reset_spec, Hst. reflexivity. }
  pose proof (epno_range h) as He.
  assert (Hdtbs : InHandler.dtbs h'
                  = trunc 16 (Z.lor (InHandler.dtbs h)
                                (Z.shiftl 1 (InHandler.epno h)))).
  { unfold h', step. cbn [in_handler InHandler_step InHandler.dtbs].
    rewrite Hdr. reflexivity. }
  assert (Hbits : forall n, n <> InHandler.epno h ->
            Z.testbit (InHandler.dtbs h') n = Z.testbit (InHandler.dtbs h) n).
  { intros n Hn. rewrite Hdtbs, testbit_trunc, Z.lor_spec by lia.
    rewrite testbit_one_hot by lia.
    replace (InHandler.epno h =? n) with false
      by (symmetry; apply Z.eqb_neq; congruence).
    rewrite orb_false_r.
    destruct (Z.ltb_spec n 16) as [Hlt | Hge].
    - apply andb_true_r.
    - rewrite (testbit_above 16 (InHandler.dtbs h) n (wf_dtbs s Hwf) Hge).
      reflexivity. }
  split; [exact Hdr | split; [|split; [exact Hbits|]]].
  - rewrite Hdtbs, testbit_trunc, Z.lor_spec by lia.
    rewrite testbit_one_hot, Z.eqb_refl by lia.
    rewrite orb_true_r.
    replace (InHandler.epno h <? 16) with true
      by (symmetry; apply Z.ltb_lt; lia).
    reflexivity.
  - intros Hpos Hne. unfold InHandler.dtb.
    rewrite !Z.shiftr_spec by lia. rewrite !Z.add_0_l.
    apply Hbits. assumption.
Qed.

Lemma C10_setup_resets_selected_toggle_witness :
  let s := run false reset_state
             ([cpu_write ENABLE_IN0 1; cpu_write IN_CTRL 0;
               bus_idle (token_start PID_IN 0); bus_idle (token PID_IN 0);
               bus_idle (token_commit PID_IN 0); cpu_write IN_CTRL 19;
               bus_idle (token_start PID_SETUP 2);
               bus_idle (token PID_SETUP 2)]) in
  let i := bus_idle (token PID_SETUP 2) in
  InHandler.dtbs (in_handler s) = 65534 /\
  InHandler.epno (in_handler s) = 3 /\
  dtb_reset (comb false s i) = true /\
  Z.testbit (InHandler.dtbs (in_handler (step false s i))) 3 = true /\
  Z.testbit (InHandler.dtbs (in_handler (step false s i))) 0 = false.
Proof.
  destruct (C10_setup_resets_selected_toggle false
              (run false reset_state
                 ([cpu_write ENABLE_IN0 1; cpu_write IN_CTRL 0;
                   bus_idle (token_start PID_IN 0);
                   bus_idle (token PID_IN 0);
                   bus_idle (token_commit PID_IN 0); cpu_write IN_CTRL 19;
                   bus_idle (token_start PID_SETUP 2);
                   bus_idle (token PID_SETUP 2)]))
              (bus_idle (token PID_SETUP 2)))
    as (Hdr & Hset & Hkeep & _).
  - apply wf_run, wf_reset.
  - reflexivity.
  - split; [reflexivity | split; [reflexivity | split; [exact Hdr | split]]].
    + exact Hset.
    + rewrite (Hkeep 0); [reflexivity | discriminate].
Defined.

(** * Further properties of the interface *)

(** ** Bulk tokens: stall and arm *)

(** On a cycle where a bulk token is decided, stall is the stall
    policy and arm is the handler's answer or the stall policy. *)
Lemma bulk_lines (debug : bool) (s : state) (i : inputs) (r : bool) :
  bulk_response s (core i) = Some r ->
  sta (comb debug s i) = should_stall s (core i) /\
  arm (comb debug s i) = r || should_stall s (core i).
Proof.
  unfold bulk_response. intros Hr.
  destruct (stage s) eqn:Hst; try discriminate Hr.
  - unfold comb, act. rewrite Hst.
    destruct (Core.idle (core i)); [discriminate Hr|].
    destruct (PID_eqb (Core.tok (core i)) PID_SETUP); [discriminate Hr|].
    destruct (PID_eqb (Core.tok (core i)) PID_IN).
    + inversion Hr; subst r. split; reflexivity.
    + destruct (PID_eqb (Core.tok (core i)) PID_OUT); [|discriminate Hr].
      inversion Hr; subst r. split; reflexivity.
  - inversion Hr; subst r. open_stage Hst; split; reflexivity.
  - inversion Hr; subst r. open_stage Hst; split; reflexivity.
Qed.

(** X1: a bulk IN or OUT token to an endpoint whose enable bit is
    clear is answered with STALL (stall and arm both high) in token
    classification and in the IN and OUT stages, whatever the
    handlers and their FIFOs hold. *)
Theorem X1_disabled_endpoint_stalls (debug : bool) (s : state) (i : inputs)
    (r : bool) :
  wf s -> 0 <= Core.endp (core i) < 16 ->
  bulk_response s (core i) = Some r ->
  Z.testbit (enable s) (code_index (core i)) = false ->
  sta (comb debug s i) = true /\ arm (comb debug s i) = true.
Proof.
  intros Hwf He Hr Hbit.
  destruct (bulk_lines debug s i r Hr) as [Hsta Harm].
  rewrite Hsta, Harm, should_stall_testbit by assumption.
  rewrite eps_idx_value by assumption.
  unfold code_index in Hbit. rewrite Hbit.
  split; [reflexivity | apply orb_true_r].
Qed.

Lemma X1_disabled_endpoint_stalls_witness :
  let s := run false reset_state
             [cpu_write ENABLE_IN0 1; cpu_write IN_CTRL 5;
              bus_idle (token_start PID_IN 5); bus_idle (token PID_IN 5)] in
  let i := bus_idle (token PID_IN 5) in
  stage s = IN /\ InHandler.response (in_handler s) (core i) = true /\
  sta (comb false s i) = true /\ arm (comb false s i) = true.
Proof.
  split; [reflexivity | split; [reflexivity|]].
  apply (X1_disabled_endpoint_stalls false
           (run false reset_state
              [cpu_write ENABLE_IN0 1; cpu_write IN_CTRL 5;
               bus_idle (token_start PID_IN 5); bus_idle (token PID_IN 5)])
           (bus_idle (token PID_IN 5)) true).
  - apply wf_run, wf_reset.
  - simpl. lia.
  - reflexivity.
  - reflexivity.
Defined.

(** X2: a bulk IN or OUT token to an endpoint whose enable bit is set
    is never stalled, and it is armed exactly when the handler of its
    direction is ready; otherwise it is NAKed. *)
Theorem X2_enabled_endpoint_follows_handler (debug : bool) (s : state)
    (i : inputs) (r : bool) :
  wf s -> 0 <= Core.endp (core i) < 16 ->
  bulk_response s (core i) = Some r ->
  Z.testbit (enable s) (code_index (core i)) = true ->
  sta (comb debug s i) = false /\ arm (comb debug s i) = r.
Proof.
  intros Hwf He Hr Hbit.
  destruct (bulk_lines debug s i r Hr) as [Hsta Harm].
  rewrite Hsta, Harm, should_stall_testbit by assumption.
  rewrite eps_idx_value by assumption.
  unfold code_index in Hbit. rewrite Hbit.
  split; [reflexivity | apply orb_false_r].
Qed.

Lemma X2_enabled_endpoint_follows_handler_witness :
  let s := run false reset_state
             [cpu_write ENABLE_OUT0 4;
              bus_idle (token_start PID_OUT 2); bus_idle (token PID_OUT 2)] in
  let i := bus_idle (token PID_OUT 2) in
  stage s = OUT /\
  sta (comb false s i) = false /\ arm (comb false s i) = false.
Proof.
  split; [reflexivity|].
  apply (X2_enabled_endpoint_follows_handler false
           (run false reset_state
              [cpu_write ENABLE_OUT0 4;
               bus_idle (token_start PID_OUT 2);
               bus_idle (token PID_OUT 2)])
           (bus_idle (token PID_OUT 2)) false).
  - apply wf_run, wf_reset.
  - simpl. lia.
  - reflexivity.
  - reflexivity.
Defined.

(** ** Decoding the SETUP payload *)

Lemma setup_data_byte_rst_spec (debug : bool) (s : state) (i : inputs) :
  setup_data_byte_rst (comb debug s i) = Stage_eqb (stage s) IDLE.
Proof. by_stages s debug. Qed.

Lemma setup_data_byte_ce_spec (debug : bool) (s : state) (i : inputs) :
  setup_data_byte_ce (comb debug s i)
  = Stage_eqb (stage s) SETUP && Core.data_recv_put (core i).
Proof. by_stages s debug. Qed.

(** The decoder registers are cleared in IDLE, take one payload byte
    per [data_recv_put] in the SETUP stage, and hold otherwise. *)
Lemma decoder_step (debug : bool) (s : state) (i : inputs) :
  decoder (step debug s i)
  = if Stage_eqb (stage s) IDLE then (0, false, false)
    else if Stage_eqb (stage s) SETUP && Core.data_recv_put (core i)
         then decode_byte (decoder s) (Core.data_recv_payload (core i))
         else decoder s.
Proof.
  unfold decoder, decode_byte, step.
  cbn [setup_data_byte setup_is_in setup_data_stage].
  rewrite setup_data_byte_rst_spec, setup_data_byte_ce_spec.
  destruct (Stage_eqb (stage s) IDLE); [reflexivity|].
  destruct (Stage_eqb (stage s) SETUP && Core.data_recv_put (core i));
    [|reflexivity].
  cbn [andb].
  destruct (setup_data_byte s =? 0), ((setup_data_byte s =? 6)
    || (setup_data_byte s =? 7)),
    (nonzero (Core.data_recv_payload (core i))); reflexivity.
Qed.

Lemma bridge_off_no_debug (debug : bool) (c : Core.t) :
  debug_packet_detected debug (bus_idle c) = false.
Proof. destruct debug; reflexivity. Qed.

(** The SETUP stage holds until the core raises [setup] or [end]. *)
Lemma setup_stage_holds (debug : bool) (s : state) (i : inputs) :
  stage s = SETUP ->
  debug_packet_detected debug i = false ->
  Core.setup (core i) = false -> Core.end_ (core i) = false ->
  Core.usb_reset (core i) = false ->
  stage (step debug s i) = SETUP.
Proof.
  intros Hst Hdbg Hsetup Hend Hrst.
  rewrite stage_step, Hrst. unfold comb, act.
  rewrite Hst, Hdbg, Hsetup, Hend. reflexivity.
Qed.

(** When the core raises [setup] the decoded flags pick the stage. *)
Lemma setup_stage_leaves (debug : bool) (s : state) (i : inputs) :
  stage s = SETUP ->
  Core.setup (core i) = true -> Core.usb_reset (core i) = false ->
  stage (step debug s i)
  = stage_after_setup (setup_is_in s) (setup_data_stage s).
Proof.
  intros Hst Hsetup Hrst.
  rewrite stage_step, Hrst. unfold comb, act, stage_after_setup.
  rewrite Hst, Hsetup.
  destruct (setup_is_in s), (setup_data_stage s),
    (debug_packet_detected debug i); reflexivity.
Qed.

(** A run of payload bytes in the SETUP stage folds [decode_byte]. *)
Lemma payload_decoded (debug : bool) (e : Z) (payload : list Z) (s : state) :
  stage s = SETUP ->
  let s' := run debug s
              (map (fun b => bus_idle (token_byte PID_SETUP e b)) payload) in
  stage s' = SETUP /\
  decoder s' = fold_left decode_byte payload (decoder s).
Proof.
  revert s. induction payload as [|b payload IH]; intros s Hst; simpl.
  - split; [assumption | reflexivity].
  - assert (Hnext : stage (step debug s (bus_idle (token_byte PID_SETUP e b)))
                    = SETUP).
    { apply setup_stage_holds;
        [assumption | apply bridge_off_no_debug
         | reflexivity | reflexivity | reflexivity]. }
    destruct (IH _ Hnext) as [Hs Hd].
    split; [exact Hs|].
    cbv zeta in Hd. rewrite Hd, decoder_step, Hst. reflexivity.
Qed.

(** The idle engine moves to token classification on [start]. *)
Lemma idle_start (debug : bool) (s : state) (i : inputs) :
  stage s = IDLE -> Core.usb_reset (core i) = false ->
  stage (step debug s i)
  = if Core.start (core i) then CHECK_TOK else IDLE.
Proof.
  intros Hst Hrst. rewrite stage_step, Hrst. unfold comb, act.
  rewrite Hst. destruct (Core.start (core i)); reflexivity.
Qed.

(** Token classification sends a SETUP token to the SETUP stage. *)
Lemma check_tok_setup (debug : bool) (s : state) (i : inputs) :
  stage s = CHECK_TOK -> Core.usb_reset (core i) = false ->
  Core.idle (core i) = false -> Core.tok (core i) = PID_SETUP ->
  stage (step debug s i) = SETUP.
Proof.
  intros Hst Hrst Hidle Htok. rewrite stage_step, Hrst. unfold comb, act.
  rewrite Hst, Hidle, Htok. reflexivity.
Qed.

(** The token and the gap before its payload take the engine from
    IDLE to the SETUP stage with the decoder cleared. *)
Lemma setup_token_enters (debug : bool) (e : Z) (s : state) :
  stage s = IDLE ->
  let s' := run debug s
              [bus_idle (token_start PID_SETUP e);
               bus_idle (token PID_SETUP e);
               bus_idle (token PID_SETUP e);
               bus_idle (token PID_SETUP e)] in
  stage s' = SETUP /\ decoder s' = (0, false, false).
Proof.
  intros Hst. cbv zeta. cbn [run].
  remember (step debug s (bus_idle (token_start PID_SETUP e))) as s1 eqn:E1.
  assert (H1 : stage s1 = CHECK_TOK).
  { rewrite E1, (idle_start debug s _ Hst); reflexivity. }
  assert (D1 : decoder s1 = (0, false, false)).
  { rewrite E1, decoder_step, Hst. reflexivity. }
  clear E1.
  remember (step debug s1 (bus_idle (token PID_SETUP e))) as s2 eqn:E2.
  assert (H2 : stage s2 = SETUP).
  { rewrite E2. apply check_tok_setup; [assumption | reflexivity ..]. }
  assert (D2 : decoder s2 = (0, false, false)).
  { rewrite E2, decoder_step, H1. exact D1. }
  clear E2.
  remember (step debug s2 (bus_idle (token PID_SETUP e))) as s3 eqn:E3.
  assert (H3 : stage s3 = SETUP).
  { rewrite E3. apply setup_stage_holds;
      [assumption | apply bridge_off_no_debug | reflexivity ..]. }
  assert (D3 : decoder s3 = (0, false, false)).
  { rewrite E3, decoder_step, H2. exact D2. }
  clear E3.
  split.
  - apply setup_stage_holds;
      [assumption | apply bridge_off_no_debug | reflexivity ..].
  - rewrite decoder_step, H3. exact D3.
Qed.

Lemma run_app (debug : bool) (tr1 tr2 : list inputs) (s : state) :
  run debug s (tr1 ++ tr2) = run debug (run debug s tr1) tr2.
Proof.
  revert s. induction tr1 as [|i tr1 IH]; intros s; simpl.
  - reflexivity.
  - apply IH.
Qed.

(** X3: from IDLE, a SETUP token with an eight-byte payload leaves
    the engine in the SETUP stage with the byte counter at 8, the
    direction taken from bit 7 of the first byte, and the data-stage
    flag set exactly when the seventh or eighth byte (wLength) is
    non-zero; when the core then raises [setup] the engine goes to
    CONTROL_IN, CONTROL_OUT, WAIT_CONTROL_ACK_IN or
    WAIT_CONTROL_ACK_OUT accordingly. *)
Theorem X3_setup_payload_decoded (debug : bool) (s : state)
    (e b0 b1 b2 b3 b4 b5 b6 b7 : Z) :
  stage s = IDLE ->
  let s' := run debug s (setup_token_on e [b0; b1; b2; b3; b4; b5; b6; b7]) in
  let is_in := Z.testbit b0 7 in
  let data := nonzero b6 || nonzero b7 in
  stage s' = SETUP /\
  setup_data_byte s' = 8 /\
  setup_is_in s' = is_in /\
  setup_data_stage s' = data /\
  stage (step debug s' (bus_idle (token_commit PID_SETUP e)))
  = stage_after_setup is_in data.
Proof.
  intros Hst. cbv zeta.
  destruct (setup_token_enters debug e s Hst) as [Hs0 Hd0].
  cbv zeta in Hs0, Hd0.
  destruct (payload_decoded debug e [b0; b1; b2; b3; b4; b5; b6; b7] _ Hs0)
    as [Hs Hd].
  cbv zeta in Hs, Hd. rewrite Hd0 in Hd. clear Hs0 Hd0.
  rewrite <- run_app in Hs, Hd.
  change (run debug s (setup_token_on e [b0; b1; b2; b3; b4; b5; b6; b7]))
    with (run debug s
            ([bus_idle (token_start PID_SETUP e);
              bus_idle (token PID_SETUP e);
              bus_idle (token PID_SETUP e);
              bus_idle (token PID_SETUP e)]
             ++ map (fun b => bus_idle (token_byte PID_SETUP e b))
                  [b0; b1; b2; b3; b4; b5; b6; b7])).
  remember (run debug s
              ([bus_idle (token_start PID_SETUP e);
                bus_idle (token PID_SETUP e);
                bus_idle (token PID_SETUP e);
                bus_idle (token PID_SETUP e)]
               ++ map (fun b => bus_idle (token_byte PID_SETUP e b))
                    [b0; b1; b2; b3; b4; b5; b6; b7])) as s' eqn:E.
  clear E.
  assert (Hdec : decoder s'
                 = (8, Z.testbit b0 7, nonzero b6 || nonzero b7)).
  { rewrite Hd. cbn -[Z.testbit nonzero].
    destruct (nonzero b6), (nonzero b7); reflexivity. }
  unfold decoder in Hdec. injection Hdec as Hn Hi Hdt.
  split; [exact Hs | split; [exact Hn | split; [exact Hi | split]]].
  - exact Hdt.
  - rewrite (setup_stage_leaves debug s' _ Hs), Hi, Hdt; reflexivity.
Qed.

Lemma X3_setup_payload_decoded_witness :
  let s' := run false reset_state (setup_token_on 0 get_descriptor) in
  stage s' = SETUP /\ setup_is_in s' = true /\ setup_data_stage s' = true /\
  stage (step false s' (bus_idle (token_commit PID_SETUP 0))) = CONTROL_IN.
Proof.
  destruct (X3_setup_payload_decoded false reset_state 0 128 6 0 1 0 0 18 0)
    as (H1 & _ & H2 & H3 & H4).
  - reflexivity.
  - split; [exact H1 | split; [exact H2 | split; [exact H3 | exact H4]]].
Defined.

(** ** The stage graph *)

Lemma next_state_allowed (debug : bool) (s : state) (i : inputs) :
  allowed_next debug (stage s) (next_state (comb debug s i)) = true.
Proof.
  destruct (stage s) eqn:Hst; unfold comb, act; rewrite Hst;
    destruct debug; unfold debug_packet_detected; cbn [andb];
    split_guards; reflexivity.
Qed.

(** X4: the stage register only ever follows the arrows of
    [allowed_next]; a bus reset leads to IDLE from every stage.  In
    particular a control data stage (CONTROL_IN, CONTROL_OUT) is left
    only for WAIT_DONE or by a bus reset, and the DEBUG stage is
    entered only from SETUP and only when the interface was built
    with the debug bridge. *)
Theorem X4_stage_graph (debug : bool) (s : state) (i : inputs) :
  (Core.usb_reset (core i) = true -> stage (step debug s i) = IDLE) /\
  (Core.usb_reset (core i) = false ->
   allowed_next debug (stage s) (stage (step debug s i)) = true).
Proof.
  rewrite stage_step. split; intros Hrst; rewrite Hrst.
  - reflexivity.
  - apply next_state_allowed.
Qed.

Lemma X4_stage_graph_witness :
  let s := run false reset_state (setup_transaction get_descriptor) in
  stage s = CONTROL_IN /\
  stage (step false s (bus_idle (token_end PID_IN 0))) = CONTROL_IN /\
  stage (step false s (mk_inputs
           (Core.mk PID_IN 0 false false false false false false false
                    true false 0 false) Bridge.off true None)) = IDLE.
Proof.
  split; [reflexivity | split; [reflexivity|]].
  apply (X4_stage_graph false
           (run false reset_state (setup_transaction get_descriptor))
           (mk_inputs
              (Core.mk PID_IN 0 false false false false false false false
                       true false 0 false) Bridge.off true None)).
  reflexivity.
Defined.

(** X5: an interface built without the debug bridge never reaches the
    DEBUG stage. *)
Theorem X5_no_debug_stage_without_bridge (tr : list inputs) :
  stage (run false reset_state tr) <> DEBUG.
Proof.
  assert (Hinv : forall tr s, stage s <> DEBUG ->
                              stage (run false s tr) <> DEBUG).
  { clear tr. induction tr as [|i tr IH]; intros s Hs; simpl.
    - exact Hs.
    - apply IH. rewrite stage_step.
      destruct (Core.usb_reset (core i)); [discriminate|].
      pose proof (next_state_allowed false s i) as Hok.
      intros Heq. rewrite Heq in Hok.
      destruct (stage s); discriminate Hok. }
  apply Hinv. discriminate.
Qed.

(** ** Diagnostic counters *)

Lemma trunc_mod (w v : Z) : 0 <= w -> trunc w v = v mod 2 ^ w.
Proof. intros Hw. unfold trunc. apply Z.land_ones. assumption. Qed.

(** X6: the error counter counts the cycles on which the core
    reports an error, modulo 256: it wraps from 255 to 0 instead of
    saturating, and neither the stage nor a bus reset affects it. *)
Theorem X6_error_count_wraps (debug : bool) (tr : list inputs) (s : state) :
  in_width 8 (error_count s) ->
  error_count (run debug s tr) = (error_count s + error_pulses tr) mod 256.
Proof.
  revert s. induction tr as [|i tr IH]; intros s Hs; simpl.
  - rewrite Z.add_0_r. symmetry. apply Z.mod_small. exact Hs.
  - assert (Hstep : error_count (step debug s i)
                    = (error_count s + Z.b2z (Core.error (core i))) mod 256).
    { unfold step. cbn [error_count].
      destruct (Core.error (core i)); simpl Z.b2z.
      - apply (trunc_mod 8). lia.
      - rewrite Z.add_0_r. symmetry. apply Z.mod_small. exact Hs. }
    rewrite IH.
    + rewrite Hstep, Zplus_mod_idemp_l. f_equal. lia.
    + rewrite Hstep. apply Z.mod_pos_bound. lia.
Qed.

Lemma X6_error_count_wraps_witness :
  let err := mk_inputs
               (Core.mk PID_SOF 0 true false false false false false true
                        false false 0 false) Bridge.off true None in
  error_count (run false reset_state (repeat err 300)) = 44.
Proof.
  cbv zeta.
  rewrite (X6_error_count_wraps false
             (repeat (mk_inputs
                        (Core.mk PID_SOF 0 true false false false false
                                 false true false false 0 false)
                        Bridge.off true None) 300) reset_state).
  - reflexivity.
  - simpl. unfold in_width. lia.
Defined.

(** ** Bus reset *)




(** ** The In Handler: toggles and the queued flag *)

Lemma dtbs_step (debug : bool) (s : state) (i : inputs) :
  let h := in_handler s in
  InHandler.dtbs (in_handler (step debug s i))
  = if Stage_eqb (stage s) SETUP
    then trunc 16 (Z.lor (InHandler.dtbs h) (Z.shiftl 1 (InHandler.epno h)))
    else if negb (Csr.re (InHandler.ctrl h)) && Core.commit (core i)
            && arm (comb debug s i) && negb (sta (comb debug s i))
         then trunc 16 (Z.lxor (InHandler.dtbs h)
                          (Z.shiftl 1 (InHandler.epno h)))
         else InHandler.dtbs h.
Proof.
  cbv zeta. unfold step. cbn [in_handler InHandler_step InHandler.dtbs].
  rewrite dtb_reset_spec.
  destruct (Stage_eqb (stage s) SETUP); [reflexivity|].
  destruct (Csr.re (InHandler.ctrl (in_handler s))); [reflexivity|].
  destruct (Core.commit (core i)); [|reflexivity].
  destruct (arm (comb debug s i)), (sta (comb debug s i)); reflexivity.
Qed.

(** X8: when a transaction commits while the engine has it armed and
    not stalled, outside the SETUP stage and with no [IN_CTRL] write
    landing, the toggle bit of the endpoint selected in [IN_CTRL] is
    inverted and the other fifteen toggle bits keep their value. *)
Theorem X8_commit_flips_selected_toggle (debug : bool) (s : state)
    (i : inputs) :
  wf s -> stage s <> SETUP ->
  Csr.re (InHandler.ctrl (in_handler s)) = false ->
  Core.commit (core i) = true ->
  arm (comb debug s i) = true -> sta (comb debug s i) = false ->
  let h := in_handler s in
  let h' := in_handler (step debug s i) in
  Z.testbit (InHandler.dtbs h') (InHandler.epno h)
  = negb (Z.testbit (InHandler.dtbs h) (InHandler.epno h)) /\
  (forall n, n <> InHandler.epno h ->
             Z.testbit (InHandler.dtbs h') n = Z.testbit (InHandler.dtbs h) n).
Proof.
  intros Hwf Hst Hre Hcommit Harm Hsta. cbv zeta.
  pose proof (dtbs_step debug s i) as Hd. cbv zeta in Hd.
  rewrite Hre, Hcommit, Harm, Hsta in Hd.
  replace (Stage_eqb (stage s) SETUP) with false in Hd
    by (destruct (stage s); try reflexivity; contradiction Hst; reflexivity).
  cbn [negb andb] in Hd. rewrite Hd. clear Hd.
  pose proof (epno_range (in_handler s)) as He.
  split.
  - rewrite testbit_trunc, Z.lxor_spec by lia.
    rewrite testbit_one_hot, Z.eqb_refl by lia.
    replace (InHandler.epno (in_handler s) <? 16) with true
      by (symmetry; apply Z.ltb_lt; lia).
    rewrite andb_true_r. apply xorb_true_r.
  - intros n Hn.
    rewrite testbit_trunc, Z.lxor_spec by lia.
    rewrite testbit_one_hot by lia.
    replace (InHandler.epno (in_handler s) =? n) with false
      by (symmetry; apply Z.eqb_neq; congruence).
    rewrite xorb_false_r.
    destruct (Z.ltb_spec n 16) as [Hlt | Hge].
    + apply andb_true_r.
    + rewrite (testbit_above 16 _ n (wf_dtbs s Hwf) Hge). reflexivity.
Qed.

Lemma X8_commit_flips_selected_toggle_witness :
  let s := run false reset_state
             [cpu_write ENABLE_IN0 4; cpu_write IN_CTRL 2;
              bus_idle (token_start PID_IN 2); bus_idle (token PID_IN 2)] in
  let i := bus_idle (token_commit PID_IN 2) in
  Z.testbit (InHandler.dtbs (in_handler s)) 2 = true /\
  Z.testbit (InHandler.dtbs (in_handler (step false s i))) 2 = false.
Proof.
  split; [reflexivity|].
  destruct (X8_commit_flips_selected_toggle false
              (run false reset_state
                 [cpu_write ENABLE_IN0 4; cpu_write IN_CTRL 2;
                  bus_idle (token_start PID_IN 2);
                  bus_idle (token PID_IN 2)])
              (bus_idle (token_commit PID_IN 2)))
    as [Hflip _].
  - apply wf_run, wf_reset.
  - discriminate.
  - reflexivity.
  - reflexivity.
  - reflexivity.
  - reflexivity.
  - exact Hflip.
Defined.

(** X9: the toggle vector changes only on a cycle of the SETUP stage
    or on a commit of an armed, unstalled transaction with no
    [IN_CTRL] write landing; on every other cycle it keeps its
    value.  In particular a CPU write to [IN_CTRL] never changes a
    toggle, and it suppresses the flip of a commit it coincides
    with. *)
Theorem X9_toggles_frame (debug : bool) (s : state) (i : inputs) :
  InHandler.dtbs (in_handler (step debug s i))
  <> InHandler.dtbs (in_handler s) ->
  stage s = SETUP \/
  (Csr.re (InHandler.ctrl (in_handler s)) = false /\
   Core.commit (core i) = true /\
   arm (comb debug s i) = true /\ sta (comb debug s i) = false).
Proof.
  intros Hne. pose proof (dtbs_step debug s i) as Hd. cbv zeta in Hd.
  destruct (stage s) eqn:Hst; try (left; reflexivity); right;
    cbn [Stage_eqb] in Hd;
    destruct (Csr.re (InHandler.ctrl (in_handler s)));
    destruct (Core.commit (core i));
    destruct (arm (comb debug s i));
    destruct (sta (comb debug s i));
    cbn [negb andb] in Hd;
    try (contradiction Hne; exact Hd);
    repeat split.
Qed.

Lemma X9_toggles_frame_witness :
  let s := run false reset_state
             [cpu_write ENABLE_IN0 4; cpu_write IN_CTRL 2;
              bus_idle (token_start PID_IN 2); bus_idle (token PID_IN 2)] in
  let i := bus_idle (token_commit PID_IN 2) in
  stage s = SETUP \/
  (Csr.re (InHandler.ctrl (in_handler s)) = false /\
   Core.commit (core i) = true /\
   arm (comb false s i) = true /\ sta (comb false s i) = false).
Proof.
  apply (X9_toggles_frame false
           (run false reset_state
              [cpu_write ENABLE_IN0 4; cpu_write IN_CTRL 2;
               bus_idle (token_start PID_IN 2); bus_idle (token PID_IN 2)])
           (bus_idle (token_commit PID_IN 2))).
  vm_compute. discriminate.
Defined.

(** X10: an [IN_CTRL] write with the reset bit clear that lands
    outside the SETUP stage queues the transfer: from the next cycle
    the In Handler answers ready exactly for tokens whose endpoint
    equals the low four bits of the written value, and not ready for
    every other endpoint. *)
Theorem X10_in_ctrl_arms_one_endpoint (debug : bool) (s : state)
    (i : inputs) (c : Core.t) :
  Csr.re (InHandler.ctrl (in_handler s)) = true ->
  InHandler.reset_fifo (in_handler s) = false ->
  stage s <> SETUP ->
  wr IN_CTRL i = None ->
  InHandler.queued (in_handler (step debug s i)) = true /\
  InHandler.response (in_handler (step debug s i)) c
  = (Core.endp c =? InHandler.epno (in_handler s)).
Proof.
  intros Hre Hrst Hst Hi.
  assert (Hdr : dtb_reset (comb debug s i) = false).
  { rewrite dtb_reset_spec. destruct (stage s); try reflexivity.
    contradiction Hst. reflexivity. }
  assert (Hq : InHandler.queued (in_handler (step debug s i)) = true).
  { unfold step. cbn [in_handler InHandler_step InHandler.queued].
    rewrite Hdr, Hre, Hrst. reflexivity. }
  assert (He : InHandler.epno (in_handler (step debug s i))
               = InHandler.epno (in_handler s)).
  { unfold InHandler.epno, step.
    cbn [in_handler InHandler_step InHandler.ctrl].
    rewrite Hi. reflexivity. }
  split; [exact Hq|].
  unfold InHandler.response. rewrite He, Hq.
  destruct (Core.endp c =? InHandler.epno (in_handler s)); reflexivity.
Qed.

Lemma X10_in_ctrl_arms_one_endpoint_witness :
  let s := run false reset_state [cpu_write IN_CTRL 3] in
  let i := bus_idle Core.quiet in
  InHandler.response (in_handler (step false s i)) (token PID_IN 3) = true /\
  InHandler.response (in_handler (step false s i)) (token PID_IN 4) = false.
Proof.
  split.
  - apply (X10_in_ctrl_arms_one_endpoint false
             (run false reset_state [cpu_write IN_CTRL 3])
             (bus_idle Core.quiet) (token PID_IN 3));
      [reflexivity | reflexivity | discriminate | reflexivity].
  - apply (X10_in_ctrl_arms_one_endpoint false
             (run false reset_state [cpu_write IN_CTRL 3])
             (bus_idle Core.quiet) (token PID_IN 4));
      [reflexivity | reflexivity | discriminate | reflexivity].
Defined.

(** X11: a queued IN transfer is one-shot.  The commit of an IN
    transaction on the queued endpoint clears the queued flag, and
    the handler then answers not ready to every token until
    [IN_CTRL] is written again; the commit of any other transaction
    (another endpoint, or not an IN token) leaves the flag as it
    is. *)
Theorem X11_queued_is_one_shot (debug : bool) (s : state) (i : inputs)
    (tr : list inputs) (c : Core.t) :
  stage s <> SETUP ->
  Csr.re (InHandler.ctrl (in_handler s)) = false ->
  wr IN_CTRL i = None ->
  Forall (fun k => wr IN_CTRL k = None) tr ->
  Core.commit (core i) = true ->
  (InHandler.is_in_packet (core i)
   && InHandler.is_our_packet (in_handler s) (core i) = true ->
   InHandler.response (in_handler (run debug (step debug s i) tr)) c
   = false) /\
  (InHandler.is_in_packet (core i)
   && InHandler.is_our_packet (in_handler s) (core i) = false ->
   InHandler.queued (in_handler (step debug s i))
   = InHandler.queued (in_handler s)).
Proof.
  intros Hst Hre Hi Htr Hcommit.
  assert (Hdr : dtb_reset (comb debug s i) = false).
  { rewrite dtb_reset_spec. destruct (stage s); try reflexivity.
    contradiction Hst. reflexivity. }
  assert (Hq : InHandler.queued (in_handler (step debug s i))
               = if InHandler.is_in_packet (core i)
                    && InHandler.is_our_packet (in_handler s) (core i)
                 then false else InHandler.queued (in_handler s)).
  { unfold step. cbn [in_handler InHandler_step InHandler.queued].
    rewrite Hdr, Hre, Hcommit. reflexivity. }
  split; intros Hours; rewrite Hours in Hq.
  - unfold InHandler.response.
    rewrite (queued_stays_low debug tr _ Hq); [| | exact Htr].
    + destruct (_ =? _); reflexivity.
    + unfold step. cbn [in_handler InHandler_step InHandler.ctrl].
      rewrite Hi. reflexivity.
  - exact Hq.
Qed.

Lemma X11_queued_is_one_shot_witness :
  let s := run false reset_state
             [cpu_write ENABLE_IN0 4; cpu_write IN_CTRL 2;
              bus_idle (token_start PID_IN 2); bus_idle (token PID_IN 2)] in
  let i := bus_idle (token_commit PID_IN 2) in
  let tr := [bus_idle (token_start PID_IN 2)] in
  InHandler.response (in_handler s) (token PID_IN 2) = true /\
  InHandler.response (in_handler (run false (step false s i) tr))
    (token PID_IN 2) = false.
Proof.
  split; [reflexivity|].
  destruct (X11_queued_is_one_shot false
              (run false reset_state
                 [cpu_write ENABLE_IN0 4; cpu_write IN_CTRL 2;
                  bus_idle (token_start PID_IN 2);
                  bus_idle (token PID_IN 2)])
              (bus_idle (token_commit PID_IN 2))
              [bus_idle (token_start PID_IN 2)] (token PID_IN 2))
    as [Hshot _].
  - discriminate.
  - reflexivity.
  - reflexivity.
  - repeat constructor.
  - reflexivity.
  - apply Hshot. reflexivity.
Defined.

(** ** Data paths through the FIFOs *)

Lemma trunc_idem (w v : Z) : 0 <= w -> trunc w (trunc w v) = trunc w v.
Proof.
  intros Hw. apply trunc_small; [assumption|].
  apply trunc_in_width. assumption.
Qed.

(** One cycle without a read by the core: the pending byte, if any,
    is appended to the IN FIFO. *)
Lemma in_buf_step (debug : bool) (s : state) (i : inputs) :
  Core.data_send_get (core i) = false ->
  (length (InHandler.buf (in_handler s))
   + length (in_data_pending (in_handler s)) <= InHandler.depth)%nat ->
  InHandler.buf (in_handler (step debug s i))
  = InHandler.buf (in_handler s) ++ in_data_pending (in_handler s).
Proof.
  intros Hget Hlen. unfold step.
  cbn [in_handler InHandler_step InHandler.buf].
  rewrite (data_out_advance_spec debug s i Hget).
  unfold in_data_pending in *. unfold Fifo.step, Fifo.writable.
  destruct (Csr.re (InHandler.data (in_handler s))); cbn [andb].
  - cbn [length] in Hlen.
    replace (Nat.ltb _ _) with true
      by (symmetry; apply Nat.ltb_lt; lia).
    reflexivity.
  - rewrite app_nil_r. reflexivity.
Qed.

(** X12: bytes the CPU writes to [IN_DATA] enter the IN FIFO in the
    order written, one per write, behind the bytes already queued,
    as long as the FIFO's 128 entries are not exceeded and the core
    is not reading. *)
Theorem X12_in_data_enqueues_in_order (debug : bool) (vs : list Z)
    (s : state) :
  (length (InHandler.buf (in_handler s))
   + length (in_data_pending (in_handler s))
   + length vs <= InHandler.depth)%nat ->
  InHandler.buf (in_handler (run debug s (fill_in_fifo vs)))
  = InHandler.buf (in_handler s) ++ in_data_pending (in_handler s)
    ++ map (trunc 8) vs.
Proof.
  unfold fill_in_fifo.
  revert s. induction vs as [|v vs IH]; intros s Hlen.
  - cbn [map app run]. cbn [length] in Hlen.
    rewrite in_buf_step; [|reflexivity|lia].
    rewrite app_nil_r. reflexivity.
  - cbn [map app run]. cbn [length] in Hlen.
    assert (Hbuf : InHandler.buf
                     (in_handler (step debug s (cpu_write IN_DATA v)))
                   = InHandler.buf (in_handler s)
                     ++ in_data_pending (in_handler s)).
    { apply in_buf_step; [reflexivity | lia]. }
    assert (Hpend : in_data_pending
                      (in_handler (step debug s (cpu_write IN_DATA v)))
                    = [trunc 8 v]).
    { unfold in_data_pending, step.
      cbn [in_handler InHandler_step InHandler.data].
      unfold wr, cpu_write, bus_write.
      cbn [cpu reg_eqb Csr.step Csr.re Csr.storage].
      rewrite trunc_idem by lia. reflexivity. }
    rewrite IH.
    + rewrite Hbuf, Hpend, <- app_assoc. reflexivity.
    + rewrite Hbuf, Hpend, length_app. cbn [length]. lia.
Qed.

Lemma X12_in_data_enqueues_in_order_witness :
  InHandler.buf (in_handler (run false reset_state (fill_in_fifo [1; 2; 300])))
  = [1; 2; 44].
Proof.
  rewrite (X12_in_data_enqueues_in_order false [1; 2; 300] reset_state).
  - reflexivity.
  - apply Nat.leb_le. reflexivity.
Defined.

Lemma out_recv_put_spec (debug : bool) (s : state) (i : inputs) :
  out_recv_put (comb debug s i)
  = (Stage_eqb (stage s) OUT
     || Stage_eqb (stage s) CONTROL_OUT && (Core.endp (core i) =? 0)
        && PID_eqb (Core.tok (core i)) PID_OUT)
    && Core.data_recv_put (core i).
Proof. by_stages s debug. Qed.

Lemma setup_recv_put_spec (debug : bool) (s : state) (i : inputs) :
  setup_recv_put (comb debug s i)
  = Stage_eqb (stage s) SETUP && Core.data_recv_put (core i).
Proof. by_stages s debug. Qed.

Lemma data_out_advance_route (debug : bool) (s : state) (i : inputs) :
  data_out_advance (comb debug s i)
  = (Stage_eqb (stage s) IN
     || Stage_eqb (stage s) CONTROL_IN && (Core.endp (core i) =? 0)
        && PID_eqb (Core.tok (core i)) PID_IN)
    && Core.data_send_get (core i).
Proof. by_stages s debug. Qed.

(** X13: the core's payload strobes reach exactly one handler, chosen
    by the stage: received bytes go to the Setup Handler in the SETUP
    stage and to the Out Handler in the OUT stage or, for an OUT token
    to endpoint 0, in CONTROL_OUT; the IN FIFO is read in the IN stage
    or, for an IN token to endpoint 0, in CONTROL_IN.  In every other
    stage the strobes are dropped. *)
Theorem X13_payload_routing (debug : bool) (s : state) (i : inputs) :
  let w := comb debug s i in
  let c := core i in
  setup_recv_put w = Stage_eqb (stage s) SETUP && Core.data_recv_put c /\
  out_recv_put w
  = (Stage_eqb (stage s) OUT
     || Stage_eqb (stage s) CONTROL_OUT && (Core.endp c =? 0)
        && PID_eqb (Core.tok c) PID_OUT)
    && Core.data_recv_put c /\
  data_out_advance w
  = (Stage_eqb (stage s) IN
     || Stage_eqb (stage s) CONTROL_IN && (Core.endp c =? 0)
        && PID_eqb (Core.tok c) PID_IN)
    && Core.data_send_get c /\
  setup_recv_put w && out_recv_put w = false.
Proof.
  cbv zeta.
  rewrite setup_recv_put_spec, out_recv_put_spec, data_out_advance_route.
  repeat split.
  destruct (stage s); cbn [Stage_eqb andb orb]; try reflexivity.
  destruct (Core.data_recv_put (core i)); reflexivity.
Qed.

Lemma out_buf_step (debug : bool) (s : state) (i : inputs) (b : Z) :
  stage s = OUT ->
  Csr.re (OutHandler.ctrl (out_handler s)) = false ->
  Core.data_recv_put (core i) = true ->
  Core.data_recv_payload (core i) = b ->
  (length (OutHandler.buf (out_handler s)) < OutHandler.depth)%nat ->
  OutHandler.buf (out_handler (step debug s i))
  = OutHandler.buf (out_handler s) ++ [trunc 8 b].
Proof.
  intros Hst Hre Hput Hb Hlen. unfold step.
  cbn [out_handler OutHandler_step OutHandler.buf].
  rewrite out_recv_put_spec, Hst, Hput, Hre.
  assert (Hpay : out_recv_payload (comb debug s i) = b).
  { open_stage Hst; exact Hb. }
  rewrite Hpay. unfold Fifo.step, Fifo.writable.
  rewrite andb_false_r. cbn [Stage_eqb orb andb].
  replace (Nat.ltb _ _) with true by (symmetry; apply Nat.ltb_lt; lia).
  reflexivity.
Qed.

(** X14: in the OUT stage the payload bytes of the data packet are
    appended to the OUT FIFO in the order received, behind the bytes
    already there, and the engine stays in the OUT stage until the
    transaction ends; this holds whether or not the handler is
    enabled, as long as the CPU does not write [OUT_CTRL] and the
    128 entries are not exceeded. *)
Theorem X14_out_payload_stored_in_order (debug : bool) (e : Z) (bs : list Z)
    (s : state) :
  stage s = OUT ->
  Csr.re (OutHandler.ctrl (out_handler s)) = false ->
  (length (OutHandler.buf (out_handler s)) + length bs
   <= OutHandler.depth)%nat ->
  let s' := run debug s (out_payload e bs) in
  stage s' = OUT /\
  OutHandler.buf (out_handler s')
  = OutHandler.buf (out_handler s) ++ map (trunc 8) bs.
Proof.
  unfold out_payload. revert s.
  induction bs as [|b bs IH]; intros s Hst Hre Hlen; cbn [map run].
  - split; [assumption | symmetry; apply app_nil_r].
  - cbn [length] in Hlen.
    remember (step debug s (bus_idle (token_byte PID_OUT e b))) as s1 eqn:E1.
    assert (H1 : stage s1 = OUT).
    { rewrite E1, stage_step. unfold comb, act. rewrite Hst. reflexivity. }
    assert (R1 : Csr.re (OutHandler.ctrl (out_handler s1)) = false).
    { rewrite E1. unfold step.
      cbn [out_handler OutHandler_step OutHandler.ctrl]. reflexivity. }
    assert (B1 : OutHandler.buf (out_handler s1)
                 = OutHandler.buf (out_handler s) ++ [trunc 8 b]).
    { rewrite E1. apply out_buf_step;
        [assumption | assumption | reflexivity | reflexivity | lia]. }
    clear E1.
    destruct (IH s1 H1 R1) as [Hs Hb].
    + rewrite B1, length_app. cbn [length]. lia.
    + cbv zeta in Hs, Hb. split; [exact Hs|].
      rewrite Hb, B1, <- app_assoc. reflexivity.
Qed.

Lemma X14_out_payload_stored_in_order_witness :
  let s := run false reset_state
             [bus_idle (token_start PID_OUT 1); bus_idle (token PID_OUT 1)] in
  OutHandler.response (out_handler s) = false /\
  OutHandler.buf (out_handler (run false s (out_payload 1 [10; 20; 30])))
  = [10; 20; 30].
Proof.
  split; [reflexivity|].
  destruct (X14_out_payload_stored_in_order false 1 [10; 20; 30]
              (run false reset_state
                 [bus_idle (token_start PID_OUT 1);
                  bus_idle (token PID_OUT 1)]))
    as [_ Hbuf].
  - reflexivity.
  - reflexivity.
  - apply Nat.leb_le. reflexivity.
  - exact Hbuf.
Defined.
(** X15: a CPU write to [SETUP_CTRL] pops the SETUP FIFO exactly
    when bit 0 (ADVANCE) of the written value is set: on the cycle
    after the write, with no SETUP token starting and no payload byte
    arriving, the head byte is removed if the bit is set and the FIFO
    is unchanged if it is clear. *)
Theorem X15_setup_ctrl_advance (debug : bool) (s : state) (i j : inputs)
    (v : Z) :
  cpu i = Some (SETUP_CTRL, v) ->
  SetupHandler.check_reset (setup_handler s) = false ->
  Core.data_recv_put (core j) = false ->
  let s1 := step debug s i in
  SetupHandler.buf (setup_handler (step debug s1 j))
  = if Z.testbit v 0
    then tl (SetupHandler.buf (setup_handler s1))
    else SetupHandler.buf (setup_handler s1).
Proof.
  intros Hcpu Hcr Hput. cbv zeta.
  remember (step debug s i) as s1 eqn:E1.
  assert (Hreset : SetupHandler.buf_reset (setup_handler s1) = false).
  { rewrite E1. unfold step.
    cbn [setup_handler SetupHandler_step SetupHandler.buf_reset].
    rewrite Hcr. reflexivity. }
  assert (Hctrl : SetupHandler.ctrl (setup_handler s1)
                  = Csr.mk (trunc 1 v) true).
  { rewrite E1. unfold step.
    cbn [setup_handler SetupHandler_step SetupHandler.ctrl].
    unfold wr. rewrite Hcpu. reflexivity. }
  clear E1. unfold step.
  cbn [setup_handler SetupHandler_step SetupHandler.buf].
  rewrite Hreset, Hctrl, setup_recv_put_spec, Hput, andb_false_r.
  cbn [Csr.re Csr.storage andb].
  rewrite testbit_trunc by lia. cbn [Z.ltb Z.compare andb].
  unfold Fifo.step.
  destruct (PID_eqb (Core.tok (core j)) PID_SETUP); cbn [andb];
    rewrite andb_true_r; reflexivity.
Qed.

Lemma X15_setup_ctrl_advance_witness :
  let s := run false reset_state (setup_transaction get_descriptor) in
  let s1 := step false s (cpu_write SETUP_CTRL 1) in
  SetupHandler.buf (setup_handler s1) = get_descriptor /\
  SetupHandler.buf (setup_handler (step false s1 (bus_idle Core.quiet)))
  = (if Z.testbit 1 0
     then tl (SetupHandler.buf (setup_handler s1))
     else SetupHandler.buf (setup_handler s1)).
Proof.
  split; [vm_compute; reflexivity|].
  apply (X15_setup_ctrl_advance false
           (run false reset_state (setup_transaction get_descriptor))
           (cpu_write SETUP_CTRL 1) (bus_idle Core.quiet) 1).
  - reflexivity.
  - vm_compute. reflexivity.
  - reflexivity.
Defined.

(** X16: a CPU write to [OUT_CTRL] pops the OUT FIFO exactly when
    bit 0 (ADVANCE) of the written value is set, on the cycle after
    the write and provided no payload byte arrives on it; the same
    write's bit 1 decides whether the handler stays enabled. *)
Theorem X16_out_ctrl_advance (debug : bool) (s : state) (i j : inputs)
    (v : Z) :
  cpu i = Some (OUT_CTRL, v) ->
  Core.data_recv_put (core j) = false ->
  wr OUT_CTRL j = None ->
  let s1 := step debug s i in
  let s2 := step debug s1 j in
  OutHandler.buf (out_handler s2)
  = (if Z.testbit v 0
     then tl (OutHandler.buf (out_handler s1))
     else OutHandler.buf (out_handler s1)) /\
  OutHandler.response (out_handler s2) = Z.testbit v 1.
Proof.
  intros Hcpu Hput Hj. cbv zeta.
  pose proof (out_ctrl_write debug s i v Hcpu) as Hctrl.
  remember (step debug s i) as s1 eqn:E1. clear E1.
  split.
  - unfold step. cbn [out_handler OutHandler_step OutHandler.buf].
    rewrite Hctrl, out_recv_put_spec, Hput, andb_false_r.
    cbn [Csr.re Csr.storage].
    rewrite testbit_trunc by lia. cbn [Z.ltb Z.compare andb].
    unfold Fifo.step. cbn [andb]. rewrite !andb_true_r. reflexivity.
  - unfold OutHandler.response.
    rewrite (out_ctrl_hold debug s1 j Hj). cbn [Csr.storage].
    unfold step at 1.
    cbn [out_handler OutHandler_step OutHandler.have_data].
    rewrite Hctrl. cbn [Csr.re Csr.storage].
    rewrite testbit_trunc by lia. cbn [Z.ltb Z.compare andb].
    rewrite andb_true_r. apply andb_diag.
Qed.

Lemma X16_out_ctrl_advance_witness :
  let s := run false
             (run false reset_state
                [bus_idle (token_start PID_OUT 1); bus_idle (token PID_OUT 1)])
             (out_payload 1 [10; 20; 30]) in
  let s1 := step false s (cpu_write OUT_CTRL 3) in
  let s2 := step false s1 (bus_idle Core.quiet) in
  OutHandler.buf (out_handler s1) = [10; 20; 30] /\
  OutHandler.buf (out_handler s2)
  = (if Z.testbit 3 0
     then tl (OutHandler.buf (out_handler s1))
     else OutHandler.buf (out_handler s1)) /\
  OutHandler.response (out_handler s2) = Z.testbit 3 1.
Proof.
  split; [vm_compute; reflexivity|].
  apply (X16_out_ctrl_advance false
           (run false
              (run false reset_state
                 [bus_idle (token_start PID_OUT 1);
                  bus_idle (token PID_OUT 1)])
              (out_payload 1 [10; 20; 30]))
           (cpu_write OUT_CTRL 3) (bus_idle Core.quiet) 3).
  - reflexivity.
  - reflexivity.
  - reflexivity.
Defined.

(** ** Control transfers on endpoint 0 *)

(** X17: during the data stage of a control transfer (CONTROL_IN
    with an IN token, CONTROL_OUT with an OUT token, endpoint 0) the
    engine does not arm the transaction while the SETUP record is
    still unread: as long as the SETUP FIFO is readable both arm and
    stall equal the stall policy, so an enabled endpoint 0 is NAKed
    even if the handler is ready. *)
Theorem X17_data_stage_waits_for_setup_drain (debug : bool) (s : state)
    (i : inputs) :
  Core.endp (core i) = 0 ->
  (stage s = CONTROL_IN /\ Core.tok (core i) = PID_IN) \/
  (stage s = CONTROL_OUT /\ Core.tok (core i) = PID_OUT) ->
  SetupHandler.empty (setup_handler s) = false ->
  arm (comb debug s i) = should_stall s (core i) /\
  sta (comb debug s i) = should_stall s (core i) /\
  next_state (comb debug s i) = stage s.
Proof.
  intros He [[Hst Htok] | [Hst Htok]] Hempty;
    unfold comb, act; rewrite Hst, He, Htok, Hempty;
    cbn [Z.eqb PID_eqb block fold_left If_ arm sta next_state
         set_stage_num set_data_send_have set_data_send_payload
         set_data_out_advance set_sta set_arm set_dtb set_in_trigger
         set_out_recv_payload set_out_recv_put set_out_trigger
         undriven andb];
    rewrite orb_false_r; repeat split.
Qed.

Lemma X17_data_stage_waits_for_setup_drain_witness :
  let s := run false reset_state
             ([cpu_write ENABLE_IN0 1; cpu_write IN_CTRL 0]
              ++ setup_transaction get_descriptor) in
  let i := bus_idle (token PID_IN 0) in
  stage s = CONTROL_IN /\
  InHandler.response (in_handler s) (core i) = true /\
  should_stall s (core i) = false /\
  arm (comb false s i) = false.
Proof.
  split; [reflexivity | split; [reflexivity | split; [reflexivity|]]].
  destruct (X17_data_stage_waits_for_setup_drain false
              (run false reset_state
                 ([cpu_write ENABLE_IN0 1; cpu_write IN_CTRL 0]
                  ++ setup_transaction get_descriptor))
              (bus_idle (token PID_IN 0)))
    as [Harm _].
  - reflexivity.
  - left. split; reflexivity.
  - reflexivity.
  - exact Harm.
Defined.

(** X18: in the data stage of a control transfer a token of the
    opposite direction on endpoint 0 is the status stage: an OUT token
    in CONTROL_IN is always acknowledged and raises the Out Handler's
    event, an IN token in CONTROL_OUT is armed once the SETUP FIFO is
    empty, and either sends the engine to WAIT_DONE.  A token to any
    other endpoint is left unanswered (arm and stall low) and the
    stage does not change. *)
Theorem X18_control_status_stage (debug : bool) (s : state) (i : inputs) :
  (stage s = CONTROL_IN -> Core.endp (core i) = 0 ->
   Core.tok (core i) = PID_OUT ->
   arm (comb debug s i) = true /\ sta (comb debug s i) = false /\
   next_state (comb debug s i) = WAIT_DONE /\
   out_trigger debug s i = true) /\
  (stage s = CONTROL_OUT -> Core.endp (core i) = 0 ->
   Core.tok (core i) = PID_IN ->
   arm (comb debug s i) = SetupHandler.empty (setup_handler s) /\
   sta (comb debug s i) = false /\
   next_state (comb debug s i) = WAIT_DONE) /\
  (stage s = CONTROL_IN \/ stage s = CONTROL_OUT ->
   Core.endp (core i) <> 0 ->
   arm (comb debug s i) = false /\ sta (comb debug s i) = false /\
   next_state (comb debug s i) = stage s).
Proof.
  split; [|split].
  - intros Hst He Htok. unfold out_trigger, resolve, comb, act.
    rewrite Hst, He, Htok. cbn. rewrite orb_true_r. repeat split.
  - intros Hst He Htok. unfold comb, act.
    rewrite Hst, He, Htok. repeat split.
  - intros Hst He.
    assert (Hz : (Core.endp (core i) =? 0) = false)
      by (apply Z.eqb_neq; exact He).
    destruct Hst as [Hst | Hst]; unfold comb, act; rewrite Hst, Hz;
      repeat split.
Qed.

Lemma X18_control_status_stage_witness :
  let s := run false reset_state (setup_transaction get_descriptor) in
  let i := bus_idle (token PID_OUT 0) in
  let k := bus_idle (token PID_IN 3) in
  stage s = CONTROL_IN /\
  arm (comb false s i) = true /\ next_state (comb false s i) = WAIT_DONE /\
  arm (comb false s k) = false /\ next_state (comb false s k) = CONTROL_IN.
Proof.
  split; [reflexivity|].
  destruct (X18_control_status_stage false
              (run false reset_state (setup_transaction get_descriptor))
              (bus_idle (token PID_OUT 0)))
    as (Hstatus & _ & _).
  destruct (X18_control_status_stage false
              (run false reset_state (setup_transaction get_descriptor))
              (bus_idle (token PID_IN 3)))
    as (_ & _ & Hother).
  destruct Hstatus as (Ha & _ & Hn & _); [reflexivity ..|].
  destruct Hother as (Hb & _ & Hm);
    [left; reflexivity | discriminate |].
  split; [exact Ha | split; [exact Hn | split; [exact Hb | exact Hm]]].
Defined.
